(** * pgxscan: a database access facade over a connection pool

    A shallow embedding of the Go package [pgxscan] (files [client.go],
    [config.go] and the context-key helpers [contextWithTx] and
    [txFromContext]) together with the properties of its transaction
    propagation, its unit-of-work coordinator [InTx], its error handling
    and its configuration handling.

    Layout:
    - values of Go's [any], errors, the [context.Context] chain;
    - the calls the package makes on its collaborators (pgxpool, pgx,
      scany) as events, and a history monad in which every function of
      the package is written;
    - [config.go] and [client.go], function by function;
    - a heap presentation of context values ([CtxHeap]);
    - the properties. *)

From Stdlib Require Import ZArith.
From stdpp Require Import gmap strings list fin_maps.

Local Open Scope string_scope.
Local Open Scope list_scope.

(** ** Handles of the collaborators' objects *)

(** A [*pgxpool.Pool], a [*pgxpool.Conn], a non-nil [pgx.Tx] and a
    [*pgxscan.API] are opaque objects of the libraries; the model names
    each by a number. *)
Definition Pool := nat.
Definition Conn := nat.
Definition Tx := nat.
Definition ScanAPI := nat.

(** [pgx.TxIsoLevel] is a string type. *)
Definition TxIsoLevel := string.

(** [time.Duration] counts nanoseconds in an int64. *)
Definition Duration := Z.
Definition Second : Duration := 1000000000%Z.

(** [pgconn.CommandTag] wraps the command's completion string. *)
Definition CommandTag := string.

(** ** Values of type [any] *)

(** What the package stores in a context or passes as a statement
    argument. [AnyNil] is the nil interface; a nil [pgx.Tx] converted to
    [any] is [AnyNil] as well. *)
Inductive any : Type :=
| AnyNil
| AnyTx (tx : Tx)
| AnyInt (n : Z)
| AnyString (s : string).

#[global] Instance any_eq_dec : EqDecision any.
Proof. solve_decision. Defined.

(** A value of interface type [pgx.Tx]: [None] is nil. *)
Definition pgxTx := option Tx.

Definition any_of_tx (tx : pgxTx) : any :=
  match tx with
  | Some t => AnyTx t
  | None => AnyNil
  end.

(** The type assertion [v.(pgx.Tx)] in its two-result form; the model
    keeps the first result, which is nil when the assertion fails. *)
Definition assert_tx (v : any) : pgxTx :=
  match v with
  | AnyTx t => Some t
  | _ => None
  end.

(** ** Errors *)

(** [errorString] is what [errors.New] and [fmt.Errorf] without [%w]
    build, [wrapError] what [fmt.Errorf] with one [%w] builds: the whole
    formatted message and the wrapped cause. [ErrRecordsNotFound] is the
    package's own sentinel. *)
Inductive error : Type :=
| errorString (s : string)
| wrapError (msg : string) (err : error)
| ErrRecordsNotFound.

#[global] Instance error_eq_dec : EqDecision error.
Proof. solve_decision. Defined.

(** Modelled from the spec: the text of [ErrRecordsNotFound], whose
    declaration is not among the package's files here; the spec names the
    outcome RecordsNotFound and gives no text. No property below depends
    on the text chosen. *)
Definition ErrRecordsNotFound_text : string := "records not found".

(** [err.Error()] *)
Definition Error (e : error) : string :=
  match e with
  | errorString s => s
  | wrapError msg _ => msg
  | ErrRecordsNotFound => ErrRecordsNotFound_text
  end.

(** [errors.Unwrap(err)] *)
Definition Unwrap (e : error) : option error :=
  match e with
  | wrapError _ err => Some err
  | _ => None
  end.

(** The chain [errors.Is] walks: the error, what it wraps, and so on. *)
Fixpoint chain (e : error) : list error :=
  match e with
  | wrapError _ err => e :: chain err
  | _ => [e]
  end.

(** [errors.Is(err, target)] for targets compared with [==]. *)
Definition errors_Is (err target : error) : bool :=
  bool_decide (target ∈ chain err).

(** [context.Canceled] *)
Definition Canceled : error := errorString "context canceled".

(** ** Contexts *)

(** The key under which the package stores a transaction is the private
    pointer [txCtxKey]; every key of another package is different from
    it. *)
Inductive ctxKey : Type :=
| txCtxKey
| foreignKey (n : nat).

#[global] Instance ctxKey_eq_dec : EqDecision ctxKey.
Proof. solve_decision. Defined.

(** A [context.Context] as the standard library builds it: a chain of
    immutable nodes, each pointing to its parent. A node that can be
    cancelled has an identity [uid], because cancelling one derived
    context must not cancel another one derived from the same parent with
    the same timeout. *)
Inductive Context : Type :=
| emptyCtx
| valueCtx (parent : Context) (key : ctxKey) (val : any)
| cancelCtx (uid : nat) (parent : Context)
| timerCtx (uid : nat) (parent : Context) (timeout : Duration).

#[global] Instance Context_eq_dec : EqDecision Context.
Proof. solve_decision. Defined.

(** [ctx.Value(key)]: the value of the nearest node holding [key]. *)
Fixpoint Value (ctx : Context) (k : ctxKey) : any :=
  match ctx with
  | emptyCtx => AnyNil
  | valueCtx parent key val => if decide (k = key) then val else Value parent k
  | cancelCtx _ parent => Value parent k
  | timerCtx _ parent _ => Value parent k
  end.

(** [context.WithValue(parent, key, val)] *)
Definition WithValue (parent : Context) (key : ctxKey) (val : any) : Context :=
  valueCtx parent key val.

(** [func contextWithTx(ctx context.Context, tx pgx.Tx) context.Context] *)
Definition contextWithTx (ctx : Context) (tx : pgxTx) : Context :=
  WithValue ctx txCtxKey (any_of_tx tx).

(** [func txFromContext(ctx context.Context) pgx.Tx] *)
Definition txFromContext (ctx : Context) : pgxTx :=
  assert_tx (Value ctx txCtxKey).

(** The nodes from a context up to its root. *)
Fixpoint ancestors (ctx : Context) : list Context :=
  ctx :: match ctx with
         | emptyCtx => []
         | valueCtx parent _ _ => ancestors parent
         | cancelCtx _ parent => ancestors parent
         | timerCtx _ parent _ => ancestors parent
         end.

(** A node made by [contextWithTx]. *)
Definition is_attachment (ctx : Context) : bool :=
  match ctx with
  | valueCtx _ key _ => bool_decide (key = txCtxKey)
  | _ => false
  end.

(** [derived c d]: [d] is [c] or is reached from [c] by the derivations
    open to code outside the package: a value under a foreign key, a
    cancellation scope, a timeout. *)
Inductive derived (c : Context) : Context -> Prop :=
| derived_refl : derived c c
| derived_value d n v : derived c d -> derived c (valueCtx d (foreignKey n) v)
| derived_cancel d uid : derived c d -> derived c (cancelCtx uid d)
| derived_timer d uid t : derived c d -> derived c (timerCtx uid d t).

(** ** The collaborators' calls as events *)

(** What an operation is issued against: the pool or a transaction. Both
    satisfy the querier interface of scany and offer Exec, Query and
    QueryRow. *)
Inductive RowSource : Type :=
| SrcPool (p : Pool)
| SrcTx (tx : Tx).

#[global] Instance RowSource_eq_dec : EqDecision RowSource.
Proof. solve_decision. Defined.

(** The [*pgxpool.Config] that [pgxpool.ParseConfig] returns: the
    connection string it was parsed from and whether a BeforeAcquire hook
    has been installed. *)
Record pgxpoolConfig : Type := mkPgxpoolConfig {
  ConnString : string;
  BeforeAcquire : bool
}.

#[global] Instance pgxpoolConfig_eq_dec : EqDecision pgxpoolConfig.
Proof. solve_decision. Defined.

(** A [pgx.Rows] or [pgx.Row]: a result that is read after the call that
    made it has returned. The model names it by that call: the source, the
    context and the statement it was given. *)
Record Rows : Type := mkRows {
  rows_src : RowSource;
  rows_ctx : Context;
  rows_sql : string;
  rows_args : list any
}.

#[global] Instance Rows_eq_dec : EqDecision Rows.
Proof. solve_decision. Defined.

Definition Row := Rows.

(** One constructor per call the package makes outside itself, with the
    arguments it passes. [dest] names the caller's destination value. *)
Inductive Event : Type :=
| EvParseConfig (dsn : string)
| EvNewWithConfig (ctx : Context) (cfg : pgxpoolConfig)
| EvNewDBScanAPI (allowUnknownColumns : bool)
| EvNewAPI (dbScan : nat)
| EvPing (p : Pool) (ctx : Context)
| EvClose (p : Pool)
| EvAcquire (p : Pool) (ctx : Context)
| EvRelease (conn : Conn)
| EvBeginTx (conn : Conn) (ctx : Context) (isoLevel : TxIsoLevel)
| EvCommit (tx : Tx) (ctx : Context)
| EvRollback (tx : Tx) (ctx : Context)
| EvScanGet (api : ScanAPI) (ctx : Context) (src : RowSource) (dest : nat)
            (sql : string) (args : list any)
| EvScanSelect (api : ScanAPI) (ctx : Context) (src : RowSource) (dest : nat)
               (sql : string) (args : list any)
| EvExec (src : RowSource) (ctx : Context) (sql : string) (args : list any)
| EvQuery (src : RowSource) (ctx : Context) (sql : string) (args : list any)
| EvQueryRow (src : RowSource) (ctx : Context) (sql : string) (args : list any)
| EvWithTimeout (ctx : Context)
| EvCancel (ctx : Context)
| EvRead (r : Rows).

#[global] Instance Event_eq_dec : EqDecision Event.
Proof. solve_decision. Defined.

(** The calls made so far, oldest first. *)
Definition History := list Event.

(** A Go result pair [(v, err)] of which the code reads [v] only when
    [err] is nil. *)
Inductive result (A : Type) : Type :=
| Ok (a : A)
| Failed (err : error).
Arguments Ok {A} a.
Arguments Failed {A} err.

(** Everything outside the package. Each answer may depend on the
    arguments of the call and on all calls made before it, which lets a
    value of this record stand for any deterministic pool, driver and
    mapper. [map_range] is the order in which a [range] over a map visits
    its entries and [Duration_String] is [time.Duration.String]. *)
Record Collab : Type := mkCollab {
  pgxpool_ParseConfig : string -> History -> option error;
  pgxpool_NewWithConfig : Context -> pgxpoolConfig -> History -> result Pool;
  pgxscan_NewDBScanAPI : bool -> History -> result nat;
  pgxscan_NewAPI : nat -> History -> result ScanAPI;
  Pool_Ping : Pool -> Context -> History -> option error;
  Pool_Acquire : Pool -> Context -> History -> result Conn;
  Conn_BeginTx : Conn -> Context -> TxIsoLevel -> History -> result Tx;
  Tx_Commit : Tx -> Context -> History -> option error;
  Tx_Rollback : Tx -> Context -> History -> option error;
  API_Get : ScanAPI -> Context -> RowSource -> nat -> string -> list any ->
            History -> option error;
  API_Select : ScanAPI -> Context -> RowSource -> nat -> string -> list any ->
               History -> option error;
  Querier_Exec : RowSource -> Context -> string -> list any -> History ->
            CommandTag * option error;
  Querier_Query : RowSource -> Context -> string -> list any -> History -> option error;
  driver_read : Rows -> History -> option error;
  pgxscan_NotFound : error -> bool;
  map_range : list (string * string) -> list (string * string);
  Duration_String : Duration -> string
}.

(** ** The history monad *)

(** A function of the package, given the calls made before it started,
    yields the calls it makes and its result. The history only grows. *)
Definition M (A : Type) : Type := History -> list Event * A.

Definition ret {A} (a : A) : M A := fun _ => ([], a).

Definition bind {A B} (m : M A) (k : A -> M B) : M B :=
  fun h =>
    let r1 := m h in
    let r2 := k (snd r1) (h ++ fst r1) in
    (fst r1 ++ fst r2, snd r2).

Notation "'let*' x ':=' m 'in' k" := (bind m (fun x => k))
  (at level 10, x name, m at level 100, k at level 200, only parsing).
Notation "'let*' ' pat ':=' m 'in' k" :=
  (bind m (fun x => match x with pat => k end))
  (at level 10, pat pattern, m at level 100, k at level 200, only parsing).

(** One call outside: it is recorded, and the collaborator answers from
    what came before it. *)
Definition call {A} (e : Event) (answer : History -> A) : M A :=
  fun h => ([e], answer h).

(** [defer d] in a function whose remaining body is [body]: [d] runs when
    the body has produced the function's result. *)
Definition defer {A} (d : M unit) (body : M A) : M A :=
  let* a := body in let* _ := d in ret a.

(** The calls a run makes and its result. *)
Definition events {A} (m : M A) (h : History) : list Event := fst (m h).
Definition outcome {A} (m : M A) (h : History) : A := snd (m h).

(** [context.WithTimeout(parent, d)]: the derived context and its cancel
    function. The new node's identity is the number of calls made so far,
    which no earlier node has. When the parent's deadline is the earlier
    one Go returns a plain cancellation scope of the parent instead; time
    does not pass in the model, and the two nodes answer [Value] and
    react to [cancel] alike. *)
Definition cancel (ctx : Context) : M unit := call (EvCancel ctx) (fun _ => tt).

Definition WithTimeout (parent : Context) (d : Duration) : M (Context * M unit) :=
  fun h =>
    let ctx := timerCtx (length h) parent d in
    ([EvWithTimeout ctx], (ctx, cancel ctx)).

(** [ctx.Err()] after the calls of [h] on a run in which no deadline
    passes: a context is cancelled once its own cancel function or that
    of an ancestor has run. Time does not pass in the model; on a run in
    which a deadline passes first Go reports DeadlineExceeded where this
    reports Canceled. Statements that must hold on every run are made
    with [is_done] below, which does not name the error. *)
Definition ctx_Err (h : History) (ctx : Context) : option error :=
  if bool_decide (Exists (fun a => EvCancel a ∈ h) (ancestors ctx))
  then Some Canceled else None.

(** ** config.go *)

Record Config : Type := mkConfig {
  Host : string;
  Port : string;
  Name : string;
  User : string;
  Password : string;
  SSLMode : string;
  QueryTimeout : Duration;
  PoolMinConnections : string;
  PoolMaxConnections : string;
  PoolMaxConnLife : Duration;
  PoolMaxConnIdle : Duration;
  EnableBeforeAcquirePing : bool;
  AllowUnknownColumns : bool
}.

(** [func (c *Config) Valid() error] *)
Definition Valid (c : Config) : option error :=
  if decide (Host c = "") then Some (errorString "'host' was not set")
  else if decide (Port c = "") then Some (errorString "'port' was not set")
  else if decide (Name c = "") then Some (errorString "'name' was not set")
  else if decide (User c = "") then Some (errorString "'user' was not set")
  else if decide (Password c = "") then Some (errorString "'password' was not set")
  else None.

(** [strings.Join(p, sep)] *)
Fixpoint Join (p : list string) (sep : string) : string :=
  match p with
  | [] => ""
  | [s] => s
  | s :: rest => s +:+ sep +:+ Join rest sep
  end.

(** [func setIfNotEmpty(m map[string]string, key, val string)]: the map
    after the call. *)
Definition setIfNotEmpty (m : gmap string string) (key val : string)
  : gmap string string :=
  if decide (val = "") then m else <[key := val]> m.

Section Package.

Variable K : Collab.

(** [func setIfPositiveDuration(m map[string]string, key string,
    d time.Duration)] *)
Definition setIfPositiveDuration (m : gmap string string) (key : string)
  (d : Duration) : gmap string string :=
  if decide (0 < d)%Z then <[key := Duration_String K d]> m else m.

(** [func dbValues(cfg Config) map[string]string] *)
Definition dbValues (cfg : Config) : gmap string string :=
  let p : gmap string string := ∅ in
  let p := setIfNotEmpty p "dbname" (Name cfg) in
  let p := setIfNotEmpty p "user" (User cfg) in
  let p := setIfNotEmpty p "host" (Host cfg) in
  let p := setIfNotEmpty p "port" (Port cfg) in
  let p := setIfNotEmpty p "sslmode" (SSLMode cfg) in
  let p := setIfNotEmpty p "password" (Password cfg) in
  let p := setIfNotEmpty p "pool_min_conns" (PoolMinConnections cfg) in
  let p := setIfNotEmpty p "pool_max_conns" (PoolMaxConnections cfg) in
  let p := setIfPositiveDuration p "pool_max_conn_lifetime" (PoolMaxConnLife cfg) in
  let p := setIfPositiveDuration p "pool_max_conn_idle_time" (PoolMaxConnIdle cfg) in
  p.

(** [func dbDSN(cfg Config) string] *)
Definition dbDSN (cfg : Config) : string :=
  let vals := dbValues cfg in
  let p := (fun kv : string * string => fst kv +:+ "=" +:+ snd kv)
             <$> map_range K (map_to_list vals) in
  Join p " ".

(** ** client.go *)

(** [type client struct] *)
Record client : Type := mkClient {
  dbPool : Pool;
  queryTimeout : Duration;
  scanApi : ScanAPI
}.

(** [fmt.Errorf(prefix + "%w", err)] *)
Definition Errorf_w (prefix : string) (err : error) : error :=
  wrapError (prefix +:+ Error err) err.

(** [func New(ctx context.Context, config Config) (Client, error)] *)
Definition New (ctx : Context) (config : Config) : M (result client) :=
  let dsnPool := dbDSN config in
  let* err := call (EvParseConfig dsnPool) (pgxpool_ParseConfig K dsnPool) in
  match err with
  | Some err => ret (Failed (Errorf_w "failed to parse connection string: " err))
  | None =>
    let pgxConfig := mkPgxpoolConfig dsnPool false in
    let pgxConfig :=
      if EnableBeforeAcquirePing config
      then mkPgxpoolConfig (ConnString pgxConfig) true
      else pgxConfig in
    let* r := call (EvNewWithConfig ctx pgxConfig) (pgxpool_NewWithConfig K ctx pgxConfig) in
    match r with
    | Failed err => ret (Failed (Errorf_w "failed to create connection pool: " err))
    | Ok pool =>
      let* err := call (EvPing pool ctx) (Pool_Ping K pool ctx) in
      match err with
      | Some err => ret (Failed (Errorf_w "ping to database connection: " err))
      | None =>
        let timeout := (Second * 5)%Z in
        let timeout :=
          if decide (QueryTimeout config > 0)%Z then QueryTimeout config else timeout in
        let* r := call (EvNewDBScanAPI (AllowUnknownColumns config))
                       (pgxscan_NewDBScanAPI K (AllowUnknownColumns config)) in
        match r with
        | Failed err => ret (Failed (Errorf_w "pgxscan.NewDBScanAPI: " err))
        | Ok dbScan =>
          let* r := call (EvNewAPI dbScan) (pgxscan_NewAPI K dbScan) in
          match r with
          | Failed err => ret (Failed (Errorf_w "pgxscan.NewAPI: " err))
          | Ok pgxscanApi =>
            ret (Ok {| dbPool := pool;
                       queryTimeout := timeout;
                       scanApi := pgxscanApi |})
          end
        end
      end
    end
  end.

(** The unexported routing functions. *)

Definition getInTx (c : client) (ctx : Context) (dest : nat) (sql : string)
  (args : list any) : M (option error) :=
  match txFromContext ctx with
  | Some tx =>
      call (EvScanGet (scanApi c) ctx (SrcTx tx) dest sql args)
           (API_Get K (scanApi c) ctx (SrcTx tx) dest sql args)
  | None =>
      call (EvScanGet (scanApi c) ctx (SrcPool (dbPool c)) dest sql args)
           (API_Get K (scanApi c) ctx (SrcPool (dbPool c)) dest sql args)
  end.

Definition selectInTx (c : client) (ctx : Context) (dest : nat) (sql : string)
  (args : list any) : M (option error) :=
  match txFromContext ctx with
  | Some tx =>
      call (EvScanSelect (scanApi c) ctx (SrcTx tx) dest sql args)
           (API_Select K (scanApi c) ctx (SrcTx tx) dest sql args)
  | None =>
      call (EvScanSelect (scanApi c) ctx (SrcPool (dbPool c)) dest sql args)
           (API_Select K (scanApi c) ctx (SrcPool (dbPool c)) dest sql args)
  end.

Definition execInTx (c : client) (ctx : Context) (sql : string)
  (args : list any) : M (CommandTag * option error) :=
  match txFromContext ctx with
  | Some tx => call (EvExec (SrcTx tx) ctx sql args) (Querier_Exec K (SrcTx tx) ctx sql args)
  | None =>
      call (EvExec (SrcPool (dbPool c)) ctx sql args)
           (Querier_Exec K (SrcPool (dbPool c)) ctx sql args)
  end.

Definition queryInTx (c : client) (ctx : Context) (sql : string)
  (args : list any) : M (Rows * option error) :=
  match txFromContext ctx with
  | Some tx =>
      call (EvQuery (SrcTx tx) ctx sql args)
           (fun h => (mkRows (SrcTx tx) ctx sql args, Querier_Query K (SrcTx tx) ctx sql args h))
  | None =>
      call (EvQuery (SrcPool (dbPool c)) ctx sql args)
           (fun h => (mkRows (SrcPool (dbPool c)) ctx sql args,
                      Querier_Query K (SrcPool (dbPool c)) ctx sql args h))
  end.

Definition queryRowsInTx (c : client) (ctx : Context) (sql : string)
  (args : list any) : M Row :=
  match txFromContext ctx with
  | Some tx =>
      call (EvQueryRow (SrcTx tx) ctx sql args) (fun _ => mkRows (SrcTx tx) ctx sql args)
  | None =>
      call (EvQueryRow (SrcPool (dbPool c)) ctx sql args)
           (fun _ => mkRows (SrcPool (dbPool c)) ctx sql args)
  end.

(** The methods of [Client]. *)

Definition Get (c : client) (ctx : Context) (dest : nat) (sql : string)
  (args : list any) : M (option error) :=
  let* '(ctxWithTimeout, cancel) := WithTimeout ctx (queryTimeout c) in
  defer cancel (
    let* err := getInTx c ctxWithTimeout dest sql args in
    match err with
    | Some err =>
        if pgxscan_NotFound K err then ret (Some ErrRecordsNotFound) else ret (Some err)
    | None => ret None
    end).

Definition Select (c : client) (ctx : Context) (dest : nat) (sql : string)
  (args : list any) : M (option error) :=
  let* '(ctxWithTimeout, cancel) := WithTimeout ctx (queryTimeout c) in
  defer cancel (
    let* err := selectInTx c ctxWithTimeout dest sql args in
    match err with
    | Some err =>
        if pgxscan_NotFound K err then ret (Some ErrRecordsNotFound) else ret (Some err)
    | None => ret None
    end).

Definition Exec (c : client) (ctx : Context) (sql : string) (args : list any)
  : M (CommandTag * option error) :=
  let* '(ctxWithTimeout, cancel) := WithTimeout ctx (queryTimeout c) in
  defer cancel (execInTx c ctxWithTimeout sql args).

Definition Query (c : client) (ctx : Context) (sql : string) (args : list any)
  : M (Rows * option error) :=
  let* '(ctxWithTimeout, cancel) := WithTimeout ctx (queryTimeout c) in
  defer cancel (queryInTx c ctxWithTimeout sql args).

Definition QueryRow (c : client) (ctx : Context) (sql : string) (args : list any)
  : M Row :=
  let* '(ctxWithTimeout, cancel) := WithTimeout ctx (queryTimeout c) in
  defer cancel (queryRowsInTx c ctxWithTimeout sql args).

Definition InTx (c : client) (ctx : Context) (isoLevel : TxIsoLevel)
  (f : Context -> M (option error)) : M (option error) :=
  let* r := call (EvAcquire (dbPool c) ctx) (Pool_Acquire K (dbPool c) ctx) in
  match r with
  | Failed err => ret (Some (Errorf_w "acquiring connection: " err))
  | Ok conn =>
    defer (call (EvRelease conn) (fun _ => tt)) (
      let* r := call (EvBeginTx conn ctx isoLevel) (Conn_BeginTx K conn ctx isoLevel) in
      match r with
      | Failed err => ret (Some (Errorf_w "starting transaction: " err))
      | Ok tx =>
        let ctxWithTx := contextWithTx ctx (Some tx) in
        let* err := f ctxWithTx in
        match err with
        | Some err =>
          let* err1 := call (EvRollback tx ctxWithTx) (Tx_Rollback K tx ctxWithTx) in
          match err1 with
          | Some err1 =>
              ret (Some (wrapError
                           ("rolling back transaction: " +:+ Error err1 +:+
                            " (original error: " +:+ Error err +:+ ")")
                           err))
          | None => ret (Some err)
          end
        | None =>
          let* err := call (EvCommit tx ctxWithTx) (Tx_Commit K tx ctxWithTx) in
          match err with
          | Some err => ret (Some (Errorf_w "committing transaction: " err))
          | None => ret None
          end
        end
      end)
  end.

Definition Ping (c : client) (ctx : Context) : M (option error) :=
  call (EvPing (dbPool c) ctx) (Pool_Ping K (dbPool c) ctx).

Definition Close (c : client) : M unit :=
  call (EvClose (dbPool c)) (fun _ => tt).


End Package.

(** ** The [Client] interface *)

(** A call of one of the methods of [Client] that take a context, with
    its remaining arguments. *)
Inductive Call : Type :=
| Call_Get (dest : nat) (sql : string) (args : list any)
| Call_Select (dest : nat) (sql : string) (args : list any)
| Call_Exec (sql : string) (args : list any)
| Call_Query (sql : string) (args : list any)
| Call_QueryRow (sql : string) (args : list any)
| Call_InTx (isoLevel : TxIsoLevel) (f : Context -> M (option error))
| Call_Ping.

(** The calls a method makes outside the package. *)
Definition calls_of (K : Collab) (c : client) (ctx : Context) (m : Call)
  (h : History) : list Event :=
  match m with
  | Call_Get dest sql args => events (Get K c ctx dest sql args) h
  | Call_Select dest sql args => events (Select K c ctx dest sql args) h
  | Call_Exec sql args => events (Exec K c ctx sql args) h
  | Call_Query sql args => events (Query K c ctx sql args) h
  | Call_QueryRow sql args => events (QueryRow c ctx sql args) h
  | Call_InTx isoLevel f => events (InTx K c ctx isoLevel f) h
  | Call_Ping => events (Ping K c ctx) h
  end.

(** A method derives a time-bounded child of the caller's context before
    it does anything else: its first call is [context.WithTimeout] on
    [ctx] with duration [d]. *)
Definition derives_timeout (evs : list Event) (ctx : Context) (d : Duration)
  : bool :=
  match evs with
  | EvWithTimeout (timerCtx _ parent timeout) :: _ =>
      bool_decide (parent = ctx) && bool_decide (timeout = d)
  | _ => false
  end.

(** The five data methods, as opposed to [InTx] and [Ping]. *)
Definition is_data_call (m : Call) : bool :=
  match m with
  | Call_InTx _ _ | Call_Ping => false
  | _ => true
  end.

(** The timeout [New] gives the client it builds. *)
Definition default_timeout : Duration := (5 * Second)%Z.

(** ** Reading a run *)

(** The five kinds of data operation. *)
Inductive OpKind : Type :=
| FetchOne | FetchMany | Execute | RunQuery | RunQueryRow.

(** The data operation an event issues, and against what. *)
Definition issued_by (e : Event) : option (OpKind * RowSource) :=
  match e with
  | EvScanGet _ _ src _ _ _ => Some (FetchOne, src)
  | EvScanSelect _ _ src _ _ _ => Some (FetchMany, src)
  | EvExec src _ _ _ => Some (Execute, src)
  | EvQuery src _ _ _ => Some (RunQuery, src)
  | EvQueryRow src _ _ _ => Some (RunQueryRow, src)
  | _ => None
  end.

Definition issued (evs : list Event) : list (OpKind * RowSource) :=
  omap issued_by evs.

Definition is_commit (e : Event) : bool :=
  match e with EvCommit _ _ => true | _ => false end.
Definition is_rollback (e : Event) : bool :=
  match e with EvRollback _ _ => true | _ => false end.
Definition is_release (e : Event) : bool :=
  match e with EvRelease _ => true | _ => false end.
Definition is_begin (e : Event) : bool :=
  match e with EvBeginTx _ _ _ => true | _ => false end.
Definition is_new_pool (e : Event) : bool :=
  match e with EvNewWithConfig _ _ => true | _ => false end.

(** How many of the events satisfy [p]. *)
Definition count (p : Event -> bool) (evs : list Event) : nat :=
  length (filter (fun e => p e = true) evs).

(** The transaction a call is made on, if it is made on one. *)
Definition tx_of (e : Event) : option Tx :=
  match e with
  | EvCommit tx _ | EvRollback tx _ => Some tx
  | EvScanGet _ _ (SrcTx tx) _ _ _ | EvScanSelect _ _ (SrcTx tx) _ _ _
  | EvExec (SrcTx tx) _ _ _ | EvQuery (SrcTx tx) _ _ _
  | EvQueryRow (SrcTx tx) _ _ _ => Some tx
  | _ => None
  end.

(** [s] occurs in [t]. *)
Definition occurs_in (s t : string) : Prop :=
  exists pre post, t = pre +:+ s +:+ post.

(** Where the routing functions send an operation. *)
Definition route (c : client) (ctx : Context) : RowSource :=
  match txFromContext ctx with
  | Some tx => SrcTx tx
  | None => SrcPool (dbPool c)
  end.

(** The context a data method derives when [h] is what came before. *)
Definition bounded (c : client) (ctx : Context) (h : History) : Context :=
  timerCtx (length h) ctx (queryTimeout c).

(** What [Get] and [Select] make of the mapper's answer. *)
Definition translate (K : Collab) (err : option error) : option error :=
  match err with
  | Some err => if pgxscan_NotFound K err then Some ErrRecordsNotFound else Some err
  | None => None
  end.

(** The error [InTx] reports when the unit of work failed with [err] and
    the rollback failed with [err1]. *)
Definition both_failed (err1 err : error) : error :=
  wrapError ("rolling back transaction: " +:+ Error err1 +:+
             " (original error: " +:+ Error err +:+ ")") err.

(** The two calls with which [InTx] opens a unit of work on connection
    [conn]. *)
Definition opening (c : client) (ctx : Context) (isoLevel : TxIsoLevel)
  (conn : Conn) : list Event :=
  [EvAcquire (dbPool c) ctx; EvBeginTx conn ctx isoLevel].

(** A cancel function of the context or of one of its ancestors has
    run. From then on the context's Done channel is closed and its Err
    is not nil, whichever of the two context errors it is. *)
Definition is_done (h : History) (ctx : Context) : bool :=
  bool_decide (Exists (fun a => EvCancel a ∈ h) (ancestors ctx)).


Definition is_with_timeout (e : Event) : bool :=
  match e with EvWithTimeout _ => true | _ => false end.

(** The context a call is made under, for the calls that take one. *)
Definition ctx_of (e : Event) : option Context :=
  match e with
  | EvNewWithConfig ctx _ | EvPing _ ctx | EvAcquire _ ctx | EvBeginTx _ ctx _
  | EvCommit _ ctx | EvRollback _ ctx | EvScanGet _ ctx _ _ _ _
  | EvScanSelect _ ctx _ _ _ _ | EvExec _ ctx _ _ | EvQuery _ ctx _ _
  | EvQueryRow _ ctx _ _ => Some ctx
  | _ => None
  end.

(** ** Contexts as heap objects *)

(** The same context operations with the nodes as Go allocates them:
    each derivation puts a new node on the heap and returns its address;
    the node refers to its parent by address. The heap lists the newest
    node first, and a node's address is the number of nodes older than
    it. *)
Module CtxHeap.

Definition addr := nat.

Inductive node : Type :=
| nEmpty
| nValue (parent : addr) (key : ctxKey) (val : any)
| nCancel (parent : addr)
| nTimer (parent : addr) (timeout : Duration).

Definition heap := list node.

Definition alloc (h : heap) (n : node) : heap * addr := (n :: h, length h).

(** [ctx.Value(key)] for the context at address [a]. *)
Fixpoint Value (h : heap) (a : addr) (k : ctxKey) : any :=
  match h with
  | [] => AnyNil
  | n :: older =>
      if decide (a = length older) then
        match n with
        | nEmpty => AnyNil
        | nValue parent key val =>
            if decide (k = key) then val else Value older parent k
        | nCancel parent => Value older parent k
        | nTimer parent _ => Value older parent k
        end
      else Value older a k
  end.

Definition WithValue (h : heap) (parent : addr) (key : ctxKey) (val : any)
  : heap * addr :=
  alloc h (nValue parent key val).

Definition WithTimeout (h : heap) (parent : addr) (d : Duration) : heap * addr :=
  alloc h (nTimer parent d).

Definition contextWithTx (h : heap) (ctx : addr) (tx : pgxTx) : heap * addr :=
  WithValue h ctx txCtxKey (any_of_tx tx).

Definition txFromContext (h : heap) (ctx : addr) : pgxTx :=
  assert_tx (Value h ctx txCtxKey).

(** The nodes met walking from [a] toward the root. *)
Fixpoint path (h : heap) (a : addr) : list node :=
  match h with
  | [] => []
  | n :: older =>
      if decide (a = length older) then
        n :: match n with
             | nEmpty => []
             | nValue parent _ _ => path older parent
             | nCancel parent => path older parent
             | nTimer parent _ => path older parent
             end
      else path older a
  end.

(** A node that attaches a transaction. *)
Definition attaches (n : node) : bool :=
  match n with
  | nValue _ key _ => bool_decide (key = txCtxKey)
  | _ => false
  end.

(** The spec's transactionOf: the transaction of the nearest node that
    attaches one, none when no node on the way does. *)
Fixpoint nearest (p : list node) : pgxTx :=
  match p with
  | [] => None
  | n :: rest =>
      match n with
      | nValue _ key val =>
          if decide (key = txCtxKey) then assert_tx val else nearest rest
      | _ => nearest rest
      end
  end.

(** The immutable value a heap context stands for. *)
Fixpoint reify (h : heap) (a : addr) : Context :=
  match h with
  | [] => emptyCtx
  | n :: older =>
      if decide (a = length older) then
        match n with
        | nEmpty => emptyCtx
        | nValue parent key val => valueCtx (reify older parent) key val
        | nCancel parent => cancelCtx a (reify older parent)
        | nTimer parent d => timerCtx a (reify older parent) d
        end
      else reify older a
  end.

End CtxHeap.

(** ** Concrete collaborators *)

(** A pool, driver and mapper in which every call succeeds, a read
    fails exactly when its context is done, and not-found is recognised
    through [errors.Is] against the driver's no-rows sentinel. *)
Definition ErrNoRows : error := errorString "no rows in result set".

Definition quiet : Collab := {|
  pgxpool_ParseConfig := fun _ _ => None;
  pgxpool_NewWithConfig := fun _ _ _ => Ok 1;
  pgxscan_NewDBScanAPI := fun _ _ => Ok 2;
  pgxscan_NewAPI := fun _ _ => Ok 3;
  Pool_Ping := fun _ _ _ => None;
  Pool_Acquire := fun _ _ h => Ok (length h);
  Conn_BeginTx := fun _ _ _ h => Ok (length h);
  Tx_Commit := fun _ _ _ => None;
  Tx_Rollback := fun _ _ _ => None;
  API_Get := fun _ _ _ _ _ _ _ => None;
  API_Select := fun _ _ _ _ _ _ _ => None;
  Querier_Exec := fun _ _ _ _ _ => ("OK", None);
  Querier_Query := fun _ _ _ _ _ => None;
  driver_read := fun r h => ctx_Err h (rows_ctx r);
  pgxscan_NotFound := fun e => errors_Is e ErrNoRows;
  map_range := fun l => l;
  Duration_String := fun _ => "1h0m0s"
|}.

(** The same, except that the mapper finds no row. *)
Definition no_rows : Collab := {|
  pgxpool_ParseConfig := pgxpool_ParseConfig quiet;
  pgxpool_NewWithConfig := pgxpool_NewWithConfig quiet;
  pgxscan_NewDBScanAPI := pgxscan_NewDBScanAPI quiet;
  pgxscan_NewAPI := pgxscan_NewAPI quiet;
  Pool_Ping := Pool_Ping quiet;
  Pool_Acquire := Pool_Acquire quiet;
  Conn_BeginTx := Conn_BeginTx quiet;
  Tx_Commit := Tx_Commit quiet;
  Tx_Rollback := Tx_Rollback quiet;
  API_Get := fun _ _ _ _ _ _ _ =>
    Some (wrapError "scany: rows final error: no rows in result set" ErrNoRows);
  API_Select := fun _ _ _ _ _ _ _ => Some (errorString "relation does not exist");
  Querier_Exec := Querier_Exec quiet;
  Querier_Query := Querier_Query quiet;
  driver_read := driver_read quiet;
  pgxscan_NotFound := pgxscan_NotFound quiet;
  map_range := map_range quiet;
  Duration_String := Duration_String quiet
|}.

(** The same as [quiet], except that the pool, the connection or the
    transaction fails at the step named. *)
Inductive Step : Type := AtAcquire | AtBegin | AtCommit | AtRollback.

Definition failing (s : Step) : Collab := {|
  pgxpool_ParseConfig := pgxpool_ParseConfig quiet;
  pgxpool_NewWithConfig := pgxpool_NewWithConfig quiet;
  pgxscan_NewDBScanAPI := pgxscan_NewDBScanAPI quiet;
  pgxscan_NewAPI := pgxscan_NewAPI quiet;
  Pool_Ping := Pool_Ping quiet;
  Pool_Acquire := fun p ctx h =>
    match s with
    | AtAcquire => Failed (errorString "closed pool")
    | _ => Pool_Acquire quiet p ctx h
    end;
  Conn_BeginTx := fun conn ctx iso h =>
    match s with
    | AtBegin => Failed (errorString "conn busy")
    | _ => Conn_BeginTx quiet conn ctx iso h
    end;
  Tx_Commit := fun _ _ _ =>
    match s with
    | AtCommit => Some (errorString "commit unexpectedly resulted in rollback")
    | _ => None
    end;
  Tx_Rollback := fun _ _ _ =>
    match s with
    | AtRollback => Some (errorString "conn closed")
    | _ => None
    end;
  API_Get := API_Get quiet;
  API_Select := API_Select quiet;
  Querier_Exec := Querier_Exec quiet;
  Querier_Query := Querier_Query quiet;
  driver_read := driver_read quiet;
  pgxscan_NotFound := pgxscan_NotFound quiet;
  map_range := map_range quiet;
  Duration_String := Duration_String quiet
|}.

(** A client as [New] builds it with the default timeout. *)
Definition client0 : client :=
  {| dbPool := 1; queryTimeout := (Second * 5)%Z; scanApi := 3 |}.

(** A configuration with every required field set, and the same with no
    password. *)
Definition config0 : Config := {|
  Host := "localhost"; Port := "5432"; Name := "app"; User := "svc";
  Password := "secret"; SSLMode := "disable"; QueryTimeout := 0%Z;
  PoolMinConnections := ""; PoolMaxConnections := "";
  PoolMaxConnLife := 0%Z; PoolMaxConnIdle := 0%Z;
  EnableBeforeAcquirePing := false; AllowUnknownColumns := false
|}.

Definition config_no_password : Config := {|
  Host := "localhost"; Port := "5432"; Name := "app"; User := "svc";
  Password := ""; SSLMode := "disable"; QueryTimeout := 0%Z;
  PoolMinConnections := ""; PoolMaxConnections := "";
  PoolMaxConnLife := 0%Z; PoolMaxConnIdle := 0%Z;
  EnableBeforeAcquirePing := false; AllowUnknownColumns := false
|}.

(** Units of work: one that does nothing and succeeds, one that fails,
    and one that executes a statement through the client it closes
    over. *)
Definition work_ok : Context -> M (option error) := fun _ => ret None.

Definition work_failing : Context -> M (option error) :=
  fun _ => ret (Some (errorString "insufficient funds")).

Definition work_exec (K : Collab) (c : client) : Context -> M (option error) :=
  fun ctx => let* r := Exec K c ctx "UPDATE t SET x = 1" [] in ret (snd r).

(** ** Further readings of a run and of a configuration *)

Definition is_close (e : Event) : bool :=
  match e with EvClose _ => true | _ => false end.
Definition is_acquire (e : Event) : bool :=
  match e with EvAcquire _ _ => true | _ => false end.

(** The keys [dbValues] can set. *)
Definition dsn_keys : list string :=
  ["dbname"; "user"; "host"; "port"; "sslmode"; "password"; "pool_min_conns";
   "pool_max_conns"; "pool_max_conn_lifetime"; "pool_max_conn_idle_time"].

(** A [range] over a map visits every entry once, in some order. *)
Definition range_permutes (K : Collab) : Prop :=
  forall l, map_range K l ≡ₚ l.

(** How many nodes a context has above it. *)
Fixpoint depth (ctx : Context) : nat :=
  match ctx with
  | emptyCtx => 0
  | valueCtx parent _ _ => S (depth parent)
  | cancelCtx _ parent => S (depth parent)
  | timerCtx _ parent _ => S (depth parent)
  end.

(** Every timeout context cancelled so far was made before now: its
    identity is below the number of calls made. *)
Definition timers_are_past (h : History) : Prop :=
  forall uid parent d, EvCancel (timerCtx uid parent d) ∈ h -> uid < length h.

(** A unit of work that executes one statement through the client and
    returns its error. *)
Definition exec_work (K : Collab) (c : client) (sql : string) (args : list any)
  : Context -> M (option error) :=
  fun ctx => let* r := Exec K c ctx sql args in ret (snd r).

(** A unit of work that fetches one row through the client and returns
    the error of the fetch. *)
Definition get_work (K : Collab) (c : client) (dest : nat) (sql : string)
  (args : list any) : Context -> M (option error) :=
  fun ctx => Get K c ctx dest sql args.

(** A unit of work that opens a unit of work of its own. *)
Definition nested_work (K : Collab) (c : client) (isoLevel : TxIsoLevel)
  (g : Context -> M (option error)) : Context -> M (option error) :=
  fun ctx => InTx K c ctx isoLevel g.


(** The same as [quiet], except that building the client fails at the
    step named. *)
Inductive NewStep : Type := AtParse | AtPool | AtPing | AtDBScan | AtAPI.

Definition failing_new (s : NewStep) : Collab := {|
  pgxpool_ParseConfig := fun _ _ =>
    match s with AtParse => Some (errorString "invalid dsn") | _ => None end;
  pgxpool_NewWithConfig := fun _ _ _ =>
    match s with AtPool => Failed (errorString "bad pool config") | _ => Ok 1 end;
  pgxscan_NewDBScanAPI := fun _ _ =>
    match s with AtDBScan => Failed (errorString "bad option") | _ => Ok 2 end;
  pgxscan_NewAPI := fun _ _ =>
    match s with AtAPI => Failed (errorString "nil dbscan") | _ => Ok 3 end;
  Pool_Ping := fun _ _ _ =>
    match s with AtPing => Some (errorString "connection refused") | _ => None end;
  Pool_Acquire := Pool_Acquire quiet;
  Conn_BeginTx := Conn_BeginTx quiet;
  Tx_Commit := Tx_Commit quiet;
  Tx_Rollback := Tx_Rollback quiet;
  API_Get := API_Get quiet;
  API_Select := API_Select quiet;
  Querier_Exec := Querier_Exec quiet;
  Querier_Query := Querier_Query quiet;
  driver_read := driver_read quiet;
  pgxscan_NotFound := pgxscan_NotFound quiet;
  map_range := map_range quiet;
  Duration_String := Duration_String quiet
|}.

(** The same as [quiet], except that every statement executed fails. *)
Definition failing_exec : Collab := {|
  pgxpool_ParseConfig := pgxpool_ParseConfig quiet;
  pgxpool_NewWithConfig := pgxpool_NewWithConfig quiet;
  pgxscan_NewDBScanAPI := pgxscan_NewDBScanAPI quiet;
  pgxscan_NewAPI := pgxscan_NewAPI quiet;
  Pool_Ping := Pool_Ping quiet;
  Pool_Acquire := Pool_Acquire quiet;
  Conn_BeginTx := Conn_BeginTx quiet;
  Tx_Commit := Tx_Commit quiet;
  Tx_Rollback := Tx_Rollback quiet;
  API_Get := API_Get quiet;
  API_Select := API_Select quiet;
  Querier_Exec := fun _ _ _ _ _ => ("", Some (errorString "unique violation"));
  Querier_Query := Querier_Query quiet;
  driver_read := driver_read quiet;
  pgxscan_NotFound := pgxscan_NotFound quiet;
  map_range := map_range quiet;
  Duration_String := Duration_String quiet
|}.

(** A configuration with pool bounds and lifetimes set, and one with
    nothing set. *)
Definition config_pooled : Config := {|
  Host := "db"; Port := "5432"; Name := "app"; User := "svc";
  Password := "p w"; SSLMode := ""; QueryTimeout := (-1)%Z;
  PoolMinConnections := "2"; PoolMaxConnections := "10";
  PoolMaxConnLife := 3600000000000%Z; PoolMaxConnIdle := (-5)%Z;
  EnableBeforeAcquirePing := true; AllowUnknownColumns := true
|}.

Definition config_zero : Config := {|
  Host := ""; Port := ""; Name := ""; User := "";
  Password := ""; SSLMode := ""; QueryTimeout := 0%Z;
  PoolMinConnections := ""; PoolMaxConnections := "";
  PoolMaxConnLife := 0%Z; PoolMaxConnIdle := 0%Z;
  EnableBeforeAcquirePing := false; AllowUnknownColumns := false
|}.

(** * Properties *)

(** ** The history monad *)

Lemma events_bind {A B} (m : M A) (k : A -> M B) (h : History) :
  events (bind m k) h = events m h ++ events (k (outcome m h)) (h ++ events m h).
Proof. reflexivity. Qed.

Lemma outcome_bind {A B} (m : M A) (k : A -> M B) (h : History) :
  outcome (bind m k) h = outcome (k (outcome m h)) (h ++ events m h).
Proof. reflexivity. Qed.

(** A deferred call comes after every call of the body and leaves the
    body's result as it is. *)
Lemma events_defer {A} (d : M unit) (body : M A) (h : History) :
  events (defer d body) h = events body h ++ events d (h ++ events body h).
Proof. unfold defer, events, bind, ret. simpl. now rewrite app_nil_r. Qed.

Lemma outcome_defer {A} (d : M unit) (body : M A) (h : History) :
  outcome (defer d body) h = outcome body h.
Proof. reflexivity. Qed.

(** ** Contexts *)

Lemma txFromContext_contextWithTx (ctx : Context) (tx : pgxTx) :
  txFromContext (contextWithTx ctx tx) = tx.
Proof.
  unfold txFromContext, contextWithTx, WithValue. simpl.
  destruct (decide (txCtxKey = txCtxKey)) as [_ | ne]; [| congruence].
  now destruct tx.
Qed.

Lemma Value_derived (c d : Context) (k : ctxKey) :
  derived c d -> k = txCtxKey -> Value d k = Value c k.
Proof.
  intros Hd ->.
  induction Hd as [| d n v _ IH | d uid _ IH | d uid t _ IH]; simpl;
    [reflexivity | exact IH ..].
Qed.

Lemma txFromContext_derived (c d : Context) :
  derived c d -> txFromContext d = txFromContext c.
Proof.
  intros Hd. unfold txFromContext. now rewrite (Value_derived c d txCtxKey Hd).
Qed.

Lemma txFromContext_timerCtx (uid : nat) (ctx : Context) (t : Duration) :
  txFromContext (timerCtx uid ctx t) = txFromContext ctx.
Proof. reflexivity. Qed.

Lemma derived_trans (a b c : Context) :
  derived a b -> derived b c -> derived a c.
Proof.
  intros Hab Hbc. induction Hbc; [assumption | | |]; constructor; assumption.
Qed.

(** The heap presentation agrees with the immutable one. *)
Lemma heap_Value_reify (h : CtxHeap.heap) (a : CtxHeap.addr) (k : ctxKey) :
  CtxHeap.Value h a k = Value (CtxHeap.reify h a) k.
Proof.
  revert a. induction h as [| n older IH]; intros a; simpl; [reflexivity |].
  destruct (decide (a = length older)) as [-> | ne]; [| apply IH].
  destruct n as [| parent key val | parent | parent d]; simpl;
    try reflexivity; try apply IH.
  destruct (decide (k = key)); [reflexivity | apply IH].
Qed.

Lemma heap_txFromContext_reify (h : CtxHeap.heap) (a : CtxHeap.addr) :
  CtxHeap.txFromContext h a = txFromContext (CtxHeap.reify h a).
Proof. unfold CtxHeap.txFromContext, txFromContext. now rewrite heap_Value_reify. Qed.

Lemma heap_contextWithTx_reify (h : CtxHeap.heap) (a : CtxHeap.addr) (tx : pgxTx) :
  CtxHeap.reify (fst (CtxHeap.contextWithTx h a tx)) (snd (CtxHeap.contextWithTx h a tx))
  = contextWithTx (CtxHeap.reify h a) tx.
Proof. simpl. case_decide; [reflexivity | congruence]. Qed.

(** Allocation leaves every older context as it was. *)
Lemma heap_Value_alloc (h : CtxHeap.heap) (n : CtxHeap.node) (a : CtxHeap.addr)
  (k : ctxKey) :
  a < length h ->
  CtxHeap.Value (fst (CtxHeap.alloc h n)) a k = CtxHeap.Value h a k.
Proof.
  intros Hlt. simpl. destruct (decide (a = length h)) as [-> | _]; [lia | reflexivity].
Qed.

Lemma heap_txFromContext_nearest (h : CtxHeap.heap) (a : CtxHeap.addr) :
  CtxHeap.txFromContext h a = CtxHeap.nearest (CtxHeap.path h a).
Proof.
  unfold CtxHeap.txFromContext. revert a.
  induction h as [| n older IH]; intros a; simpl; [reflexivity |].
  destruct (decide (a = length older)) as [-> | ne]; [| apply IH].
  destruct n as [| parent key val | parent | parent d]; simpl;
    try reflexivity; try apply IH.
  destruct (decide (txCtxKey = key)) as [<- | ne].
  - destruct (decide (txCtxKey = txCtxKey)); [reflexivity | congruence].
  - destruct (decide (key = txCtxKey)) as [-> | _]; [congruence | apply IH].
Qed.

Lemma nearest_no_attachment (p : list CtxHeap.node) :
  Forall (fun n => CtxHeap.attaches n = false) p -> CtxHeap.nearest p = None.
Proof.
  induction 1 as [| n rest Hn _ IH]; simpl; [reflexivity |].
  destruct n as [| parent key val | parent | parent d]; try exact IH.
  simpl in Hn. destruct (decide (key = txCtxKey)) as [-> | _]; [| exact IH].
  now rewrite bool_decide_eq_true_2 in Hn.
Qed.

(** ** Runs of the facade methods *)

Section Runs.

Variable K : Collab.
Variable c : client.

Ltac run_method :=
  intros; unfold Get, Select, Exec, Query, QueryRow, getInTx, selectInTx,
    execInTx, queryInTx, queryRowsInTx, WithTimeout, defer, bind, call, ret,
    cancel, route, bounded, translate;
  simpl; rewrite ?txFromContext_timerCtx;
  repeat match goal with
         | |- context [txFromContext ?x] => destruct (txFromContext x); simpl
         | |- context [match ?a with Some _ => _ | None => _ end] =>
             destruct a; simpl
         | |- context [if ?b then _ else _] => destruct b; simpl
         end;
  reflexivity.

Lemma Get_run ctx dest sql args h :
  Get K c ctx dest sql args h =
  let t := bounded c ctx h in
  ([EvWithTimeout t; EvScanGet (scanApi c) t (route c ctx) dest sql args; EvCancel t],
   translate K (API_Get K (scanApi c) t (route c ctx) dest sql args
                        (h ++ [EvWithTimeout t]))).
Proof. run_method. Qed.

Lemma Select_run ctx dest sql args h :
  Select K c ctx dest sql args h =
  let t := bounded c ctx h in
  ([EvWithTimeout t; EvScanSelect (scanApi c) t (route c ctx) dest sql args;
    EvCancel t],
   translate K (API_Select K (scanApi c) t (route c ctx) dest sql args
                           (h ++ [EvWithTimeout t]))).
Proof. run_method. Qed.

Lemma Exec_run ctx sql args h :
  Exec K c ctx sql args h =
  let t := bounded c ctx h in
  ([EvWithTimeout t; EvExec (route c ctx) t sql args; EvCancel t],
   Querier_Exec K (route c ctx) t sql args (h ++ [EvWithTimeout t])).
Proof. run_method. Qed.

Lemma Query_run ctx sql args h :
  Query K c ctx sql args h =
  let t := bounded c ctx h in
  ([EvWithTimeout t; EvQuery (route c ctx) t sql args; EvCancel t],
   (mkRows (route c ctx) t sql args,
    Querier_Query K (route c ctx) t sql args (h ++ [EvWithTimeout t]))).
Proof. run_method. Qed.

Lemma QueryRow_run ctx sql args h :
  QueryRow c ctx sql args h =
  let t := bounded c ctx h in
  ([EvWithTimeout t; EvQueryRow (route c ctx) t sql args; EvCancel t],
   mkRows (route c ctx) t sql args).
Proof. run_method. Qed.

End Runs.

Section Unit_of_work.

Variable K : Collab.
Variable c : client.

(** The run of [InTx], path by path. *)
Lemma InTx_run ctx iso f h :
  InTx K c ctx iso f h =
  let acq := EvAcquire (dbPool c) ctx in
  match Pool_Acquire K (dbPool c) ctx h with
  | Failed err => ([acq], Some (Errorf_w "acquiring connection: " err))
  | Ok conn =>
    let beg := EvBeginTx conn ctx iso in
    match Conn_BeginTx K conn ctx iso (h ++ [acq]) with
    | Failed err =>
        ([acq; beg; EvRelease conn], Some (Errorf_w "starting transaction: " err))
    | Ok tx =>
      let cx := contextWithTx ctx (Some tx) in
      let w := f cx (h ++ [acq; beg]) in
      match snd w with
      | Some err =>
        match Tx_Rollback K tx cx (h ++ [acq; beg] ++ fst w) with
        | Some err1 =>
            ([acq; beg] ++ fst w ++ [EvRollback tx cx; EvRelease conn],
             Some (both_failed err1 err))
        | None =>
            ([acq; beg] ++ fst w ++ [EvRollback tx cx; EvRelease conn], Some err)
        end
      | None =>
        match Tx_Commit K tx cx (h ++ [acq; beg] ++ fst w) with
        | Some err =>
            ([acq; beg] ++ fst w ++ [EvCommit tx cx; EvRelease conn],
             Some (Errorf_w "committing transaction: " err))
        | None =>
            ([acq; beg] ++ fst w ++ [EvCommit tx cx; EvRelease conn], None)
        end
      end
    end
  end.
Proof.
  unfold InTx, defer, bind, call, ret; simpl.
  destruct (Pool_Acquire K (dbPool c) ctx h) as [conn | err]; simpl; [| reflexivity].
  destruct (Conn_BeginTx K conn ctx iso (h ++ [EvAcquire (dbPool c) ctx]))
    as [tx | err]; simpl; [| reflexivity].
  rewrite <- !app_assoc; simpl.
  destruct (f (contextWithTx ctx (Some tx))
              (h ++ [EvAcquire (dbPool c) ctx; EvBeginTx conn ctx iso]))
    as [cb [err |]]; simpl.
  - destruct (Tx_Rollback K tx (contextWithTx ctx (Some tx))
                (h ++ EvAcquire (dbPool c) ctx :: EvBeginTx conn ctx iso :: cb));
      simpl; rewrite <- ?app_assoc; reflexivity.
  - destruct (Tx_Commit K tx (contextWithTx ctx (Some tx))
                (h ++ EvAcquire (dbPool c) ctx :: EvBeginTx conn ctx iso :: cb));
      simpl; rewrite <- ?app_assoc; reflexivity.
Qed.

End Unit_of_work.

(** ** Transaction lookup *)

(** C8. Attaching a transaction to a context and looking it up again
    yields that transaction; every context that existed before the
    attachment answers every lookup as it did before; a context with no
    attachment on its way to the root has no transaction; and a lookup
    yields the transaction of the nearest attachment, so that a
    descendant that attaches another transaction, and everything derived
    from it, sees the new one while the contexts above keep theirs. *)
Theorem attach_then_lookup (h : CtxHeap.heap) (ctx : CtxHeap.addr) (tx : pgxTx) :
  let h' := fst (CtxHeap.contextWithTx h ctx tx) in
  let ctx' := snd (CtxHeap.contextWithTx h ctx tx) in
  CtxHeap.txFromContext h' ctx' = tx
  /\ (forall a k, a < length h -> CtxHeap.Value h' a k = CtxHeap.Value h a k)
  /\ (forall a, a < length h -> CtxHeap.txFromContext h' a = CtxHeap.txFromContext h a)
  /\ (forall a, Forall (fun n => CtxHeap.attaches n = false) (CtxHeap.path h a) ->
               CtxHeap.txFromContext h a = None)
  /\ (forall a, CtxHeap.txFromContext h' a = CtxHeap.nearest (CtxHeap.path h' a))
  /\ (forall d tx2 e,
        derived (CtxHeap.reify h' ctx') d -> derived (contextWithTx d tx2) e ->
        txFromContext e = tx2 /\ txFromContext d = tx).
Proof.
  intros h' ctx'; subst h' ctx'.
  split; [| split; [| split; [| split; [| split]]]].
  - rewrite heap_txFromContext_reify, heap_contextWithTx_reify.
    apply txFromContext_contextWithTx.
  - intros a k Ha. apply (heap_Value_alloc h _ a k Ha).
  - intros a Ha.
    exact (f_equal assert_tx (heap_Value_alloc h _ a txCtxKey Ha)).
  - intros a Hp. rewrite heap_txFromContext_nearest. now apply nearest_no_attachment.
  - intros a. apply heap_txFromContext_nearest.
  - intros d tx2 e Hd He. split.
    + rewrite (txFromContext_derived _ _ He). apply txFromContext_contextWithTx.
    + rewrite (txFromContext_derived _ _ Hd), heap_contextWithTx_reify.
      apply txFromContext_contextWithTx.
Qed.

Lemma attach_then_lookup_witness :
  let h := [CtxHeap.nTimer 0 Second; CtxHeap.nEmpty] in
  CtxHeap.txFromContext (fst (CtxHeap.contextWithTx h 1 (Some 7)))
                        (snd (CtxHeap.contextWithTx h 1 (Some 7))) = Some 7
  /\ CtxHeap.Value (fst (CtxHeap.contextWithTx h 1 (Some 7))) 1 txCtxKey
     = CtxHeap.Value h 1 txCtxKey
  /\ CtxHeap.txFromContext (fst (CtxHeap.contextWithTx h 1 (Some 7))) 1
     = CtxHeap.txFromContext h 1
  /\ CtxHeap.txFromContext h 1 = None
  /\ txFromContext
       (timerCtx 5 (contextWithTx (cancelCtx 4 (contextWithTx (timerCtx 1 emptyCtx Second)
                                                              (Some 7)))
                                  (Some 8)) Second) = Some 8.
Proof.
  intros h.
  destruct (attach_then_lookup h 1 (Some 7)) as (H1 & H2 & H3 & H4 & _ & H6).
  split; [exact H1 |].
  split; [apply H2; simpl; lia |].
  split; [apply H3; simpl; lia |].
  split; [apply H4; repeat constructor |].
  apply (H6 (cancelCtx 4 (contextWithTx (timerCtx 1 emptyCtx Second) (Some 7)))
            (Some 8)).
  - apply derived_cancel. vm_compute. apply derived_refl.
  - apply derived_timer, derived_refl.
Defined.

(** ** Routing *)

Lemma route_no_tx (c : client) (ctx : Context) :
  txFromContext ctx = None -> route c ctx = SrcPool (dbPool c).
Proof. unfold route. now intros ->. Qed.

Lemma route_tx (c : client) (ctx0 ctx : Context) (tx : Tx) :
  txFromContext ctx0 = Some tx -> derived ctx0 ctx -> route c ctx = SrcTx tx.
Proof.
  intros H0 Hd. unfold route. now rewrite (txFromContext_derived _ _ Hd), H0.
Qed.

(** What the five data methods issue on a context whose route is
    [src]. *)
Lemma data_methods_issue (K : Collab) (c : client) (ctx : Context) (dest : nat)
  (sql : string) (args : list any) (h : History) :
  issued (events (Get K c ctx dest sql args) h) = [(FetchOne, route c ctx)]
  /\ issued (events (Select K c ctx dest sql args) h) = [(FetchMany, route c ctx)]
  /\ issued (events (Exec K c ctx sql args) h) = [(Execute, route c ctx)]
  /\ issued (events (Query K c ctx sql args) h) = [(RunQuery, route c ctx)]
  /\ issued (events (QueryRow c ctx sql args) h) = [(RunQueryRow, route c ctx)].
Proof.
  unfold events.
  rewrite Get_run, Select_run, Exec_run, Query_run, QueryRow_run.
  repeat split.
Qed.

(** C1. On a context with no transaction attached each of Get, Select,
    Exec, Query and QueryRow issues exactly one operation, of its own
    kind, against the client's pool. On a context that carries a
    transaction, or that is derived in any number of steps from one that
    does, each issues its one operation against that transaction, and
    nothing against the pool. *)
Theorem routing_follows_context (K : Collab) (c : client) (dest : nat)
  (sql : string) (args : list any) (h : History) :
  (forall ctx, txFromContext ctx = None ->
     issued (events (Get K c ctx dest sql args) h) = [(FetchOne, SrcPool (dbPool c))]
     /\ issued (events (Select K c ctx dest sql args) h)
        = [(FetchMany, SrcPool (dbPool c))]
     /\ issued (events (Exec K c ctx sql args) h) = [(Execute, SrcPool (dbPool c))]
     /\ issued (events (Query K c ctx sql args) h) = [(RunQuery, SrcPool (dbPool c))]
     /\ issued (events (QueryRow c ctx sql args) h)
        = [(RunQueryRow, SrcPool (dbPool c))])
  /\ (forall ctx0 tx ctx, txFromContext ctx0 = Some tx -> derived ctx0 ctx ->
     issued (events (Get K c ctx dest sql args) h) = [(FetchOne, SrcTx tx)]
     /\ issued (events (Select K c ctx dest sql args) h) = [(FetchMany, SrcTx tx)]
     /\ issued (events (Exec K c ctx sql args) h) = [(Execute, SrcTx tx)]
     /\ issued (events (Query K c ctx sql args) h) = [(RunQuery, SrcTx tx)]
     /\ issued (events (QueryRow c ctx sql args) h) = [(RunQueryRow, SrcTx tx)]).
Proof.
  split.
  - intros ctx Hnone. rewrite <- (route_no_tx c ctx Hnone). apply data_methods_issue.
  - intros ctx0 tx ctx Htx Hd. rewrite <- (route_tx c ctx0 ctx tx Htx Hd).
    apply data_methods_issue.
Qed.

Lemma routing_follows_context_witness :
  let grandchild :=
    timerCtx 4 (valueCtx (contextWithTx emptyCtx (Some 9)) (foreignKey 1) (AnyInt 5))
             Second in
  issued (events (Exec quiet client0 (cancelCtx 2 emptyCtx) "DELETE FROM t" []) [])
  = [(Execute, SrcPool 1)]
  /\ issued (events (Get quiet client0 grandchild 0 "SELECT 1" []) [])
     = [(FetchOne, SrcTx 9)]
  /\ issued (events (QueryRow client0 grandchild "SELECT 1" []) [])
     = [(RunQueryRow, SrcTx 9)].
Proof.
  intros grandchild.
  destruct (routing_follows_context quiet client0 0 "DELETE FROM t" [] [])
    as [Hpool _].
  destruct (routing_follows_context quiet client0 0 "SELECT 1" [] []) as [_ Htx].
  split.
  - apply (Hpool (cancelCtx 2 emptyCtx)). reflexivity.
  - assert (Hd : derived (contextWithTx emptyCtx (Some 9)) grandchild)
      by (apply derived_timer, derived_value, derived_refl).
    destruct (Htx (contextWithTx emptyCtx (Some 9)) 9 grandchild eq_refl Hd)
      as (HGet & _ & _ & _ & HRow).
    split; [exact HGet | exact HRow].
Defined.

(** ** The unit-of-work coordinator *)

Lemma append_assoc (s1 s2 s3 : string) : (s1 +:+ s2) +:+ s3 = s1 +:+ s2 +:+ s3.
Proof.
  induction s1 as [| a s1 IH]; [reflexivity |].
  change (String a ((s1 +:+ s2) +:+ s3) = String a (s1 +:+ s2 +:+ s3)).
  now rewrite IH.
Qed.

Lemma errors_Is_wrapped (msg : string) (err : error) :
  errors_Is (wrapError msg err) err = true.
Proof.
  unfold errors_Is. apply bool_decide_eq_true_2. simpl. right.
  destruct err; simpl; left.
Qed.

Section Coordinator.

Variable K : Collab.
Variable c : client.
Variable ctx : Context.
Variable isoLevel : TxIsoLevel.
Variable f : Context -> M (option error).
Variable h : History.

(** C2. Once a connection is acquired and a transaction begun, [InTx]
    runs the unit of work on the context carrying that transaction and
    then makes exactly two more calls of its own. When the unit of work
    succeeded they are one commit and the release: no rollback, and a
    failed commit is what [InTx] returns, wrapped, in place of the
    success. When the unit of work failed they are one rollback and the
    release: no commit. *)
Theorem commit_or_rollback_once (conn : Conn) (tx : Tx) :
  Pool_Acquire K (dbPool c) ctx h = Ok conn ->
  Conn_BeginTx K conn ctx isoLevel (h ++ [EvAcquire (dbPool c) ctx]) = Ok tx ->
  let cx := contextWithTx ctx (Some tx) in
  let work := events (f cx) (h ++ opening c ctx isoLevel conn) in
  match outcome (f cx) (h ++ opening c ctx isoLevel conn) with
  | None =>
      let closing := [EvCommit tx cx; EvRelease conn] in
      events (InTx K c ctx isoLevel f) h = opening c ctx isoLevel conn ++ work ++ closing
      /\ count is_commit (opening c ctx isoLevel conn ++ closing) = 1
      /\ count is_rollback (opening c ctx isoLevel conn ++ closing) = 0
      /\ outcome (InTx K c ctx isoLevel f) h =
         match Tx_Commit K tx cx (h ++ opening c ctx isoLevel conn ++ work) with
         | Some err => Some (Errorf_w "committing transaction: " err)
         | None => None
         end
  | Some _ =>
      let closing := [EvRollback tx cx; EvRelease conn] in
      events (InTx K c ctx isoLevel f) h = opening c ctx isoLevel conn ++ work ++ closing
      /\ count is_rollback (opening c ctx isoLevel conn ++ closing) = 1
      /\ count is_commit (opening c ctx isoLevel conn ++ closing) = 0
  end.
Proof.
  intros Hacq Hbeg cx work. subst cx work. unfold events, outcome.
  rewrite InTx_run. cbv zeta. rewrite Hacq, Hbeg. unfold opening.
  destruct (snd (f (contextWithTx ctx (Some tx))
                   (h ++ [EvAcquire (dbPool c) ctx; EvBeginTx conn ctx isoLevel])))
    as [err |].
  - destruct (Tx_Rollback K tx _ _); repeat split.
  - destruct (Tx_Commit K tx _ _); repeat split.
Qed.

(** C3. When the unit of work fails with [err] and the rollback fails
    too, with [err1], the error [InTx] returns wraps [err] itself, so
    that unwrapping it and [errors.Is] both reach the original failure,
    and its message carries the message of the rollback failure and
    that of the original failure. When the rollback succeeds [InTx]
    returns [err] as it is. *)
Theorem rollback_failure_keeps_cause (conn : Conn) (tx : Tx) (err : error) :
  Pool_Acquire K (dbPool c) ctx h = Ok conn ->
  Conn_BeginTx K conn ctx isoLevel (h ++ [EvAcquire (dbPool c) ctx]) = Ok tx ->
  let cx := contextWithTx ctx (Some tx) in
  let h1 := h ++ opening c ctx isoLevel conn in
  outcome (f cx) h1 = Some err ->
  match Tx_Rollback K tx cx (h1 ++ events (f cx) h1) with
  | Some err1 =>
      exists e, outcome (InTx K c ctx isoLevel f) h = Some e
        /\ Unwrap e = Some err
        /\ errors_Is e err = true
        /\ occurs_in (Error err1) (Error e)
        /\ occurs_in (Error err) (Error e)
  | None => outcome (InTx K c ctx isoLevel f) h = Some err
  end.
Proof.
  intros Hacq Hbeg cx h1 Hwork. subst cx h1. revert Hwork. unfold events, outcome.
  rewrite InTx_run. cbv zeta. rewrite Hacq, Hbeg. unfold opening.
  intros ->. rewrite <- app_assoc.
  destruct (Tx_Rollback K tx _ _) as [err1 |]; [| reflexivity].
  exists (both_failed err1 err). split; [reflexivity |].
  split; [reflexivity |]. split; [apply errors_Is_wrapped |]. split.
  - exists "rolling back transaction: ",
      (" (original error: " +:+ Error err +:+ ")"). reflexivity.
  - exists ("rolling back transaction: " +:+ Error err1 +:+ " (original error: "), ")".
    simpl Error. now rewrite !append_assoc.
Qed.

(** C4. When the pool hands out a connection, the calls of [InTx] are
    the two opening calls, the calls of the unit of work (none when the
    transaction could not be begun), the commit or rollback (none when
    the transaction could not be begun) and last the release of that
    connection: among the coordinator's own calls there is exactly one
    release, on each of the paths. When the pool hands out no connection
    [InTx] makes no call but the acquisition, so begins no transaction
    and releases nothing, and returns the pool's error wrapped as an
    acquisition failure. *)
Theorem connection_released_once :
  match Pool_Acquire K (dbPool c) ctx h with
  | Failed err =>
      events (InTx K c ctx isoLevel f) h = [EvAcquire (dbPool c) ctx]
      /\ outcome (InTx K c ctx isoLevel f) h
         = Some (Errorf_w "acquiring connection: " err)
      /\ count is_begin (events (InTx K c ctx isoLevel f) h) = 0
      /\ count is_release (events (InTx K c ctx isoLevel f) h) = 0
  | Ok conn =>
      let h1 := h ++ opening c ctx isoLevel conn in
      let began := Conn_BeginTx K conn ctx isoLevel (h ++ [EvAcquire (dbPool c) ctx]) in
      let work :=
        match began with
        | Ok tx => events (f (contextWithTx ctx (Some tx))) h1
        | Failed _ => []
        end in
      let ending :=
        match began with
        | Ok tx =>
            match outcome (f (contextWithTx ctx (Some tx))) h1 with
            | None => [EvCommit tx (contextWithTx ctx (Some tx))]
            | Some _ => [EvRollback tx (contextWithTx ctx (Some tx))]
            end
        | Failed _ => []
        end in
      events (InTx K c ctx isoLevel f) h
      = opening c ctx isoLevel conn ++ work ++ ending ++ [EvRelease conn]
      /\ count is_release (opening c ctx isoLevel conn ++ ending ++ [EvRelease conn]) = 1
      /\ count is_release (opening c ctx isoLevel conn ++ ending) = 0
  end.
Proof.
  unfold events, outcome. rewrite InTx_run. cbv zeta. unfold opening.
  destruct (Pool_Acquire K (dbPool c) ctx h) as [conn | err]; [| repeat split].
  destruct (Conn_BeginTx K conn ctx isoLevel (h ++ [EvAcquire (dbPool c) ctx]))
    as [tx | err]; [| repeat split].
  destruct (snd (f (contextWithTx ctx (Some tx))
                   (h ++ [EvAcquire (dbPool c) ctx; EvBeginTx conn ctx isoLevel])))
    as [err |].
  - destruct (Tx_Rollback K tx _ _); repeat split.
  - destruct (Tx_Commit K tx _ _); repeat split.
Qed.

(** C9. Called on a context that already carries a transaction, [InTx]
    does what it does on any context: its first call acquires a
    connection from the client's pool, its second begins a transaction
    on that connection at the isolation level it was given, the unit of
    work runs on a context whose transaction is the new one, and every
    call the coordinator itself makes on a transaction is made on the new
    one. *)
Theorem nested_InTx_starts_afresh (ambient : Tx) :
  txFromContext ctx = Some ambient ->
  head (events (InTx K c ctx isoLevel f) h) = Some (EvAcquire (dbPool c) ctx)
  /\ match Pool_Acquire K (dbPool c) ctx h with
     | Failed _ => events (InTx K c ctx isoLevel f) h = [EvAcquire (dbPool c) ctx]
     | Ok conn =>
         events (InTx K c ctx isoLevel f) h !! 1 = Some (EvBeginTx conn ctx isoLevel)
         /\ match Conn_BeginTx K conn ctx isoLevel (h ++ [EvAcquire (dbPool c) ctx]) with
            | Failed _ =>
                events (InTx K c ctx isoLevel f) h
                = opening c ctx isoLevel conn ++ [EvRelease conn]
            | Ok tx =>
                let cx := contextWithTx ctx (Some tx) in
                let h1 := h ++ opening c ctx isoLevel conn in
                txFromContext cx = Some tx
                /\ exists closing,
                    events (InTx K c ctx isoLevel f) h
                    = opening c ctx isoLevel conn ++ events (f cx) h1 ++ closing
                    /\ Forall (fun e => tx_of e = None \/ tx_of e = Some tx)
                              (opening c ctx isoLevel conn ++ closing)
            end
     end.
Proof.
  intros _. unfold events. rewrite InTx_run. cbv zeta. unfold opening.
  destruct (Pool_Acquire K (dbPool c) ctx h) as [conn | err]; [| now split].
  destruct (Conn_BeginTx K conn ctx isoLevel (h ++ [EvAcquire (dbPool c) ctx]))
    as [tx | err]; [| now repeat split].
  assert (Hown : forall last,
             tx_of last = None \/ tx_of last = Some tx ->
             Forall (fun e => tx_of e = None \/ tx_of e = Some tx)
                    ([EvAcquire (dbPool c) ctx; EvBeginTx conn ctx isoLevel]
                       ++ [last; EvRelease conn])).
  { intros last Hlast. simpl.
    repeat (constructor; [first [left; reflexivity | exact Hlast] |]).
    constructor. }
  destruct (snd (f (contextWithTx ctx (Some tx))
                   (h ++ [EvAcquire (dbPool c) ctx; EvBeginTx conn ctx isoLevel])))
    as [err |].
  - destruct (Tx_Rollback K tx _ _); simpl fst;
      (split; [reflexivity |]); (split; [reflexivity |]);
      (split; [apply txFromContext_contextWithTx |]);
      eexists; (split; [reflexivity |]); apply Hown; right; reflexivity.
  - destruct (Tx_Commit K tx _ _); simpl fst;
      (split; [reflexivity |]); (split; [reflexivity |]);
      (split; [apply txFromContext_contextWithTx |]);
      eexists; (split; [reflexivity |]); apply Hown; right; reflexivity.
Qed.

End Coordinator.

(** The release on the path where the transaction cannot be begun, and
    the lone acquisition when the pool is closed. *)
Example release_after_failed_begin :
  InTx (failing AtBegin) client0 emptyCtx "serializable" work_ok []
  = ([EvAcquire 1 emptyCtx; EvBeginTx 0 emptyCtx "serializable"; EvRelease 0],
     Some (wrapError "starting transaction: conn busy" (errorString "conn busy"))).
Proof. reflexivity. Qed.

Example nothing_released_without_connection :
  InTx (failing AtAcquire) client0 emptyCtx "serializable" work_ok []
  = ([EvAcquire 1 emptyCtx],
     Some (wrapError "acquiring connection: closed pool" (errorString "closed pool"))).
Proof. reflexivity. Qed.

Lemma commit_or_rollback_once_witness :
  let cx := contextWithTx emptyCtx (Some 1) in
  let t := timerCtx 2 cx (Second * 5)%Z in
  events (InTx quiet client0 emptyCtx "serializable" (work_exec quiet client0)) []
  = [EvAcquire 1 emptyCtx; EvBeginTx 0 emptyCtx "serializable";
     EvWithTimeout t; EvExec (SrcTx 1) t "UPDATE t SET x = 1" []; EvCancel t;
     EvCommit 1 cx; EvRelease 0]
  /\ outcome (InTx (failing AtCommit) client0 emptyCtx "serializable" work_ok) []
     = Some (wrapError
               "committing transaction: commit unexpectedly resulted in rollback"
               (errorString "commit unexpectedly resulted in rollback"))
  /\ events (InTx quiet client0 emptyCtx "serializable" work_failing) []
     = [EvAcquire 1 emptyCtx; EvBeginTx 0 emptyCtx "serializable";
        EvRollback 1 cx; EvRelease 0].
Proof.
  intros cx t.
  pose proof (commit_or_rollback_once quiet client0 emptyCtx "serializable"
                (work_exec quiet client0) [] 0 1 eq_refl eq_refl) as H1.
  pose proof (commit_or_rollback_once (failing AtCommit) client0 emptyCtx
                "serializable" work_ok [] 0 1 eq_refl eq_refl) as H2.
  pose proof (commit_or_rollback_once quiet client0 emptyCtx "serializable"
                work_failing [] 0 1 eq_refl eq_refl) as H3.
  hnf in H1, H2, H3.
  destruct H1 as (E1 & _), H2 as (_ & _ & _ & E2), H3 as (E3 & _).
  split; [exact E1 | split; [exact E2 | exact E3]].
Defined.

Lemma rollback_failure_keeps_cause_witness :
  (exists e,
      outcome (InTx (failing AtRollback) client0 emptyCtx "serializable" work_failing) []
      = Some e
      /\ Unwrap e = Some (errorString "insufficient funds")
      /\ errors_Is e (errorString "insufficient funds") = true
      /\ occurs_in "conn closed" (Error e)
      /\ occurs_in "insufficient funds" (Error e))
  /\ outcome (InTx quiet client0 emptyCtx "serializable" work_failing) []
     = Some (errorString "insufficient funds").
Proof.
  split.
  - exact (rollback_failure_keeps_cause (failing AtRollback) client0 emptyCtx
             "serializable" work_failing [] 0 1 (errorString "insufficient funds")
             eq_refl eq_refl eq_refl).
  - exact (rollback_failure_keeps_cause quiet client0 emptyCtx
             "serializable" work_failing [] 0 1 (errorString "insufficient funds")
             eq_refl eq_refl eq_refl).
Defined.

Lemma nested_InTx_starts_afresh_witness :
  let ambient := contextWithTx emptyCtx (Some 40) in
  let cx := contextWithTx ambient (Some 1) in
  txFromContext ambient = Some 40
  /\ events (InTx quiet client0 ambient "read committed" work_ok) [] !! 0
     = Some (EvAcquire 1 ambient)
  /\ events (InTx quiet client0 ambient "read committed" work_ok) [] !! 1
     = Some (EvBeginTx 0 ambient "read committed")
  /\ txFromContext cx = Some 1
  /\ exists closing,
       events (InTx quiet client0 ambient "read committed" work_ok) []
       = opening client0 ambient "read committed" 0 ++ [] ++ closing
       /\ Forall (fun e => tx_of e = None \/ tx_of e = Some 1)
                 (opening client0 ambient "read committed" 0 ++ closing).
Proof.
  intros ambient cx.
  pose proof (nested_InTx_starts_afresh quiet client0 ambient "read committed"
                work_ok [] 40 eq_refl) as H.
  hnf in H. destruct H as (H0 & H1 & H2 & H3).
  split; [reflexivity |]. split; [exact H0 |]. split; [exact H1 |].
  split; [exact H2 | exact H3].
Defined.

(** ** Not found *)

(** C5. [Get] and [Select] return [ErrRecordsNotFound] when the mapper's
    error satisfies scany's not-found test, return any other error of the
    mapper as it is, and return nil when the mapper does. The sentinel
    differs from every error built by [errors.New] or [fmt.Errorf], so a
    caller telling the result from [ErrRecordsNotFound] tells not-found
    from every other failure, as long as the mapper does not itself
    return the package's sentinel. *)
Theorem not_found_is_translated (K : Collab) (c : client) (ctx : Context)
  (dest : nat) (sql : string) (args : list any) (h : History) :
  let t := bounded c ctx h in
  let got := API_Get K (scanApi c) t (route c ctx) dest sql args
                     (h ++ [EvWithTimeout t]) in
  let selected := API_Select K (scanApi c) t (route c ctx) dest sql args
                             (h ++ [EvWithTimeout t]) in
  outcome (Get K c ctx dest sql args) h =
    match got with
    | Some err =>
        if pgxscan_NotFound K err then Some ErrRecordsNotFound else Some err
    | None => None
    end
  /\ outcome (Select K c ctx dest sql args) h =
    match selected with
    | Some err =>
        if pgxscan_NotFound K err then Some ErrRecordsNotFound else Some err
    | None => None
    end
  /\ (forall s, ErrRecordsNotFound <> errorString s)
  /\ (forall msg err, ErrRecordsNotFound <> wrapError msg err)
  /\ (forall err, got = Some err -> err <> ErrRecordsNotFound ->
        (outcome (Get K c ctx dest sql args) h = Some ErrRecordsNotFound
         <-> pgxscan_NotFound K err = true))
  /\ (forall err, selected = Some err -> err <> ErrRecordsNotFound ->
        (outcome (Select K c ctx dest sql args) h = Some ErrRecordsNotFound
         <-> pgxscan_NotFound K err = true)).
Proof.
  intros t got selected. subst t got selected. unfold outcome.
  rewrite Get_run, Select_run. cbv zeta. unfold translate. simpl snd.
  split; [reflexivity |]. split; [reflexivity |].
  split; [discriminate |]. split; [discriminate |].
  split; intros err -> Hne; destruct (pgxscan_NotFound K err);
    split; congruence.
Qed.

Lemma not_found_is_translated_witness :
  outcome (Get no_rows client0 emptyCtx 0 "SELECT * FROM t WHERE id = $1" [AnyInt 7]) []
  = Some ErrRecordsNotFound
  /\ outcome (Select no_rows client0 emptyCtx 0 "SELECT * FROM u" []) []
     = Some (errorString "relation does not exist")
  /\ (outcome (Select no_rows client0 emptyCtx 0 "SELECT * FROM u" []) []
      = Some ErrRecordsNotFound
      <-> pgxscan_NotFound no_rows (errorString "relation does not exist") = true).
Proof.
  pose proof (not_found_is_translated no_rows client0 emptyCtx 0
                "SELECT * FROM t WHERE id = $1" [AnyInt 7] []) as H1.
  pose proof (not_found_is_translated no_rows client0 emptyCtx 0
                "SELECT * FROM u" [] []) as H2.
  hnf in H1, H2.
  destruct H1 as (E1 & _), H2 as (_ & E2 & _ & _ & _ & E3).
  split; [exact E1 |]. split; [exact E2 |].
  apply (E3 (errorString "relation does not exist")); [reflexivity | discriminate].
Defined.

(** ** The timeout envelope *)

Lemma New_timeout (K : Collab) (ctx : Context) (config : Config) (h : History)
  (cl : client) :
  outcome (New K ctx config) h = Ok cl ->
  queryTimeout cl
  = if decide (QueryTimeout config > 0)%Z then QueryTimeout config else default_timeout.
Proof.
  unfold outcome, New, bind, call, ret. simpl.
  destruct (pgxpool_ParseConfig K _ _); simpl; [discriminate |].
  destruct (pgxpool_NewWithConfig K _ _ _); simpl; [| discriminate].
  destruct (Pool_Ping K _ _ _); simpl; [discriminate |].
  destruct (pgxscan_NewDBScanAPI K _ _); simpl; [| discriminate].
  destruct (pgxscan_NewAPI K _ _); simpl; [| discriminate].
  intros [= <-]. reflexivity.
Qed.

(** C6, as the claim states it, fails: [InTx] is a public method and
    derives no time-bounded context. On the background context its first
    call is the acquisition, made under the caller's context itself. *)
Lemma InTx_derives_no_timeout :
  calls_of quiet client0 emptyCtx (Call_InTx "serializable" work_ok) []
  = [EvAcquire 1 emptyCtx; EvBeginTx 0 emptyCtx "serializable";
     EvCommit 1 (contextWithTx emptyCtx (Some 1)); EvRelease 0]
  /\ derives_timeout
       (calls_of quiet client0 emptyCtx (Call_InTx "serializable" work_ok) [])
       emptyCtx (queryTimeout client0) = false.
Proof. split; reflexivity. Qed.

(** C6, amended. Each of Get, Select, Exec, Query and QueryRow first
    derives a child of the caller's context bounded by the client's query
    timeout, issues its operation under that child and cancels it on
    return. The client's query timeout is the configured one when that is
    positive and five seconds otherwise. [InTx] and [Ping] derive no
    context of that kind. [InTx] acquires and begins under the caller's
    context as it is, runs the unit of work and commits or rolls back
    under that context with the transaction attached, and no call of its
    own is a [context.WithTimeout]; [Ping] pings under the caller's
    context as it is. *)
Theorem data_methods_bound_their_context (K : Collab) (c : client) (ctx : Context)
  (dest : nat) (sql : string) (args : list any) (isoLevel : TxIsoLevel)
  (f : Context -> M (option error)) (h : History) :
  let t := timerCtx (length h) ctx (queryTimeout c) in
  calls_of K c ctx (Call_Get dest sql args) h
  = [EvWithTimeout t; EvScanGet (scanApi c) t (route c ctx) dest sql args; EvCancel t]
  /\ calls_of K c ctx (Call_Select dest sql args) h
     = [EvWithTimeout t; EvScanSelect (scanApi c) t (route c ctx) dest sql args;
        EvCancel t]
  /\ calls_of K c ctx (Call_Exec sql args) h
     = [EvWithTimeout t; EvExec (route c ctx) t sql args; EvCancel t]
  /\ calls_of K c ctx (Call_Query sql args) h
     = [EvWithTimeout t; EvQuery (route c ctx) t sql args; EvCancel t]
  /\ calls_of K c ctx (Call_QueryRow sql args) h
     = [EvWithTimeout t; EvQueryRow (route c ctx) t sql args; EvCancel t]
  /\ (forall m, is_data_call m = true ->
        derives_timeout (calls_of K c ctx m h) ctx (queryTimeout c) = true)
  /\ head (calls_of K c ctx (Call_InTx isoLevel f) h) = Some (EvAcquire (dbPool c) ctx)
  /\ derives_timeout (calls_of K c ctx (Call_InTx isoLevel f) h) ctx (queryTimeout c)
     = false
  /\ match Pool_Acquire K (dbPool c) ctx h with
     | Failed _ =>
         calls_of K c ctx (Call_InTx isoLevel f) h = [EvAcquire (dbPool c) ctx]
     | Ok conn =>
         match Conn_BeginTx K conn ctx isoLevel (h ++ [EvAcquire (dbPool c) ctx]) with
         | Failed _ =>
             calls_of K c ctx (Call_InTx isoLevel f) h
             = [EvAcquire (dbPool c) ctx; EvBeginTx conn ctx isoLevel;
                EvRelease conn]
         | Ok tx =>
             let cx := contextWithTx ctx (Some tx) in
             exists closing,
               calls_of K c ctx (Call_InTx isoLevel f) h
               = [EvAcquire (dbPool c) ctx; EvBeginTx conn ctx isoLevel]
                 ++ events (f cx) (h ++ opening c ctx isoLevel conn)
                 ++ [closing; EvRelease conn]
               /\ (closing = EvCommit tx cx \/ closing = EvRollback tx cx)
               /\ count is_with_timeout
                    [EvAcquire (dbPool c) ctx; EvBeginTx conn ctx isoLevel;
                     closing; EvRelease conn] = 0
         end
     end
  /\ calls_of K c ctx Call_Ping h = [EvPing (dbPool c) ctx]
  /\ (forall ctx0 config h0 cl,
        outcome (New K ctx0 config) h0 = Ok cl ->
        queryTimeout cl
        = if decide (QueryTimeout config > 0)%Z then QueryTimeout config
          else default_timeout).
Proof.
  intros t. subst t. unfold calls_of, events.
  rewrite Get_run, Select_run, Exec_run, Query_run, QueryRow_run, InTx_run.
  cbv zeta. unfold bounded, opening.
  do 5 (split; [reflexivity |]).
  split.
  { intros m Hm. destruct m; try discriminate Hm;
      rewrite ?Get_run, ?Select_run, ?Exec_run, ?Query_run, ?QueryRow_run;
      cbv zeta; unfold bounded, derives_timeout; simpl fst; cbv beta iota;
      now rewrite !bool_decide_eq_true_2. }
  split; [| split; [| split; [| split; [reflexivity | apply New_timeout]]]].
  - destruct (Pool_Acquire K _ _ _) as [conn | err]; [| reflexivity].
    destruct (Conn_BeginTx K _ _ _ _) as [tx | err]; [| reflexivity].
    destruct (snd _); [destruct (Tx_Rollback K _ _ _) | destruct (Tx_Commit K _ _ _)];
      reflexivity.
  - destruct (Pool_Acquire K _ _ _) as [conn | err]; [| reflexivity].
    destruct (Conn_BeginTx K _ _ _ _) as [tx | err]; [| reflexivity].
    destruct (snd _); [destruct (Tx_Rollback K _ _ _) | destruct (Tx_Commit K _ _ _)];
      reflexivity.
  - destruct (Pool_Acquire K _ _ _) as [conn | err]; [| reflexivity].
    destruct (Conn_BeginTx K _ _ _ _) as [tx | err]; [| reflexivity].
    destruct (snd _); [destruct (Tx_Rollback K _ _ _) | destruct (Tx_Commit K _ _ _)];
      eexists; (split; [reflexivity |]); (split; [auto | reflexivity]).
Qed.

Lemma data_methods_bound_their_context_witness :
  derives_timeout
    (calls_of quiet client0 emptyCtx (Call_Query "SELECT now()" []) [])
    emptyCtx (queryTimeout client0) = true
  /\ (exists cl, outcome (New quiet emptyCtx config0) [] = Ok cl
                 /\ queryTimeout cl = 5000000000%Z)
  /\ exists closing,
       calls_of quiet client0 emptyCtx (Call_InTx "serializable" work_ok) []
       = [EvAcquire 1 emptyCtx; EvBeginTx 0 emptyCtx "serializable"]
         ++ [] ++ [closing; EvRelease 0]
       /\ (closing = EvCommit 1 (contextWithTx emptyCtx (Some 1))
           \/ closing = EvRollback 1 (contextWithTx emptyCtx (Some 1))).
Proof.
  destruct (data_methods_bound_their_context quiet client0 emptyCtx 0 "" []
              "serializable" work_ok [])
    as (_ & _ & _ & _ & _ & Hdata & _ & _ & HInTx & _ & Hnew).
  split; [| split].
  - apply (Hdata (Call_Query "SELECT now()" [])). reflexivity.
  - eexists. split; [vm_compute; reflexivity |].
    exact (Hnew emptyCtx config0 [] _ eq_refl).
  - hnf in HInTx. destruct HInTx as (closing & Hcalls & Hclosing & _).
    exists closing. split; [exact Hcalls | exact Hclosing].
Defined.

(** ** Configuration *)









(** ** Results read after the method has returned *)






(** * Further properties *)

(** ** The connection string *)

Lemma lookup_setIfNotEmpty (m : gmap string string) (key val k : string) :
  setIfNotEmpty m key val !! k
  = if decide (k = key)
    then (if decide (val = "") then m !! k else Some val)
    else m !! k.
Proof.
  unfold setIfNotEmpty. destruct (decide (k = key)) as [-> | ne];
    destruct (decide (val = "")); try reflexivity.
  - apply lookup_insert_eq.
  - now apply lookup_insert_ne.
Qed.

Lemma lookup_setIfPositiveDuration (K : Collab) (m : gmap string string)
  (key : string) (d : Duration) (k : string) :
  setIfPositiveDuration K m key d !! k
  = if decide (k = key)
    then (if decide (0 < d)%Z then Some (Duration_String K d) else m !! k)
    else m !! k.
Proof.
  unfold setIfPositiveDuration. destruct (decide (k = key)) as [-> | ne];
    destruct (decide (0 < d)%Z); try reflexivity.
  - apply lookup_insert_eq.
  - now apply lookup_insert_ne.
Qed.

Lemma lookup_dbValues (K : Collab) (cfg : Config) (k : string) :
  dbValues K cfg !! k
  = if decide (k = "pool_max_conn_idle_time") then
      (if decide (0 < PoolMaxConnIdle cfg)%Z
       then Some (Duration_String K (PoolMaxConnIdle cfg)) else None)
    else if decide (k = "pool_max_conn_lifetime") then
      (if decide (0 < PoolMaxConnLife cfg)%Z
       then Some (Duration_String K (PoolMaxConnLife cfg)) else None)
    else if decide (k = "pool_max_conns") then
      (if decide (PoolMaxConnections cfg = "") then None
       else Some (PoolMaxConnections cfg))
    else if decide (k = "pool_min_conns") then
      (if decide (PoolMinConnections cfg = "") then None
       else Some (PoolMinConnections cfg))
    else if decide (k = "password") then
      (if decide (Password cfg = "") then None else Some (Password cfg))
    else if decide (k = "sslmode") then
      (if decide (SSLMode cfg = "") then None else Some (SSLMode cfg))
    else if decide (k = "port") then
      (if decide (Port cfg = "") then None else Some (Port cfg))
    else if decide (k = "host") then
      (if decide (Host cfg = "") then None else Some (Host cfg))
    else if decide (k = "user") then
      (if decide (User cfg = "") then None else Some (User cfg))
    else if decide (k = "dbname") then
      (if decide (Name cfg = "") then None else Some (Name cfg))
    else None.
Proof.
  unfold dbValues. cbv zeta.
  rewrite !lookup_setIfPositiveDuration, !lookup_setIfNotEmpty, lookup_empty.
  repeat (destruct (decide (k = _)) as [-> | ?]; [reflexivity |]).
  reflexivity.
Qed.

(** X1. [dbValues] holds one entry for each string field that is not
    empty, under the key of that field, and one for each connection
    lifetime that is positive, holding its printed form; an empty field
    and a zero or negative lifetime leave no entry, no entry overwrites
    another, and there is no entry under any other key. *)
Theorem dbValues_entries (K : Collab) (cfg : Config) :
  let set (s : string) := if decide (s = "") then None else Some s in
  let positive (d : Duration) :=
    if decide (0 < d)%Z then Some (Duration_String K d) else None in
  dbValues K cfg !! "dbname" = set (Name cfg)
  /\ dbValues K cfg !! "user" = set (User cfg)
  /\ dbValues K cfg !! "host" = set (Host cfg)
  /\ dbValues K cfg !! "port" = set (Port cfg)
  /\ dbValues K cfg !! "sslmode" = set (SSLMode cfg)
  /\ dbValues K cfg !! "password" = set (Password cfg)
  /\ dbValues K cfg !! "pool_min_conns" = set (PoolMinConnections cfg)
  /\ dbValues K cfg !! "pool_max_conns" = set (PoolMaxConnections cfg)
  /\ dbValues K cfg !! "pool_max_conn_lifetime" = positive (PoolMaxConnLife cfg)
  /\ dbValues K cfg !! "pool_max_conn_idle_time" = positive (PoolMaxConnIdle cfg)
  /\ (forall k, k ∉ dsn_keys -> dbValues K cfg !! k = None).
Proof.
  intros set positive. subst set positive. cbv beta.
  repeat (split; [rewrite lookup_dbValues; reflexivity |]).
  intros k Hk. rewrite lookup_dbValues. unfold dsn_keys in Hk.
  repeat (destruct (decide (k = _)) as [-> | ?];
          [exfalso; apply Hk; set_solver |]).
  reflexivity.
Qed.

Lemma dbValues_entries_witness :
  dbValues quiet config_pooled !! "password" = Some "p w"
  /\ dbValues quiet config_pooled !! "sslmode" = None
  /\ dbValues quiet config_pooled !! "pool_max_conn_lifetime" = Some "1h0m0s"
  /\ dbValues quiet config_pooled !! "pool_max_conn_idle_time" = None
  /\ dbValues quiet config_pooled !! "application_name" = None.
Proof.
  destruct (dbValues_entries quiet config_pooled)
    as (_ & _ & _ & _ & Hssl & Hpw & _ & _ & Hlife & Hidle & Hother).
  split; [exact Hpw |]. split; [exact Hssl |]. split; [exact Hlife |].
  split; [exact Hidle |].
  apply Hother. unfold dsn_keys. rewrite !elem_of_cons, elem_of_nil.
  intros H. repeat (destruct H as [H | H]; [discriminate H |]). exact H.
Defined.

Lemma append_nil_r (s : string) : s +:+ "" = s.
Proof.
  induction s as [| a s IH]; [reflexivity |].
  change (String a (s +:+ "") = String a s). now rewrite IH.
Qed.

Lemma append_eq_nil (s1 s2 : string) : s1 +:+ s2 = "" -> s1 = "".
Proof. destruct s1; [reflexivity | discriminate]. Qed.

Lemma occurs_in_Join (s sep : string) (p : list string) :
  s ∈ p -> occurs_in s (Join p sep).
Proof.
  induction p as [| a rest IH]; intros Hin; [now apply elem_of_nil in Hin |].
  apply elem_of_cons in Hin as [-> | Hin].
  - destruct rest as [| b rest].
    + exists "", "". simpl. now rewrite append_nil_r.
    + exists "", (sep +:+ Join (b :: rest) sep). reflexivity.
  - destruct rest as [| b rest]; [now apply elem_of_nil in Hin |].
    destruct (IH Hin) as (pre & post & Heq).
    exists (a +:+ sep +:+ pre), post.
    change (a +:+ sep +:+ Join (b :: rest) sep
            = (a +:+ sep +:+ pre) +:+ s +:+ post).
    now rewrite Heq, !append_assoc.
Qed.

Lemma Join_eq_nil (sep : string) (p : list string) :
  Forall (fun s => s <> "") p -> Join p sep = "" -> p = [].
Proof.
  intros Hall Hjoin. destruct p as [| a rest]; [reflexivity | exfalso].
  apply Forall_cons in Hall as [Ha _]. apply Ha.
  destruct rest; [exact Hjoin | exact (append_eq_nil _ _ Hjoin)].
Qed.

Lemma dbDSN_entry (K : Collab) (cfg : Config) (k v : string) :
  range_permutes K -> dbValues K cfg !! k = Some v ->
  occurs_in (k +:+ "=" +:+ v) (dbDSN K cfg).
Proof.
  intros Hperm Hkv. unfold dbDSN. cbv zeta. apply occurs_in_Join.
  apply (list_elem_of_fmap_2
           (fun kv : string * string => fst kv +:+ "=" +:+ snd kv) _ (k, v)).
  rewrite (Hperm _). now apply elem_of_map_to_list.
Qed.

Lemma dbDSN_empty_iff (K : Collab) (cfg : Config) :
  range_permutes K -> (dbDSN K cfg = "" <-> dbValues K cfg = ∅).
Proof.
  intros Hperm. unfold dbDSN. cbv zeta. split.
  - intros Hjoin. apply Join_eq_nil in Hjoin.
    + apply fmap_nil_inv in Hjoin. apply map_to_list_empty_iff.
      apply Permutation_nil_r. now rewrite <- (Hperm _), Hjoin.
    + apply Forall_fmap, Forall_forall. intros [k v] _. unfold compose. simpl.
      intros Hnil. pose proof (append_eq_nil _ _ Hnil) as ->. discriminate Hnil.
  - intros ->. rewrite map_to_list_empty.
    pose proof (Hperm []) as Hnil. apply Permutation_nil_r in Hnil.
    now rewrite Hnil.
Qed.

(** X2. Provided a range over the map visits each entry once, every
    entry of [dbValues] appears in the connection string as its key, an
    equals sign and its value exactly as configured, with no quoting, and
    the connection string is empty exactly when no field is set. *)
Theorem dbDSN_carries_every_entry (K : Collab) (cfg : Config) :
  range_permutes K ->
  (forall k v, dbValues K cfg !! k = Some v ->
               occurs_in (k +:+ "=" +:+ v) (dbDSN K cfg))
  /\ (dbDSN K cfg = "" <-> dbValues K cfg = ∅)
  /\ (dbDSN K cfg = "" <->
      Name cfg = "" /\ User cfg = "" /\ Host cfg = "" /\ Port cfg = ""
      /\ SSLMode cfg = "" /\ Password cfg = "" /\ PoolMinConnections cfg = ""
      /\ PoolMaxConnections cfg = "" /\ (PoolMaxConnLife cfg <= 0)%Z
      /\ (PoolMaxConnIdle cfg <= 0)%Z).
Proof.
  intros Hperm. split; [intros k v; now apply dbDSN_entry |].
  split; [now apply dbDSN_empty_iff |].
  rewrite (dbDSN_empty_iff K cfg Hperm). split.
  - intros Hempty.
    assert (Hnone : forall k, dbValues K cfg !! k = None)
      by (intros k; rewrite Hempty; apply lookup_empty).
    pose proof (Hnone "dbname") as H1. pose proof (Hnone "user") as H2.
    pose proof (Hnone "host") as H3. pose proof (Hnone "port") as H4.
    pose proof (Hnone "sslmode") as H5. pose proof (Hnone "password") as H6.
    pose proof (Hnone "pool_min_conns") as H7.
    pose proof (Hnone "pool_max_conns") as H8.
    pose proof (Hnone "pool_max_conn_lifetime") as H9.
    pose proof (Hnone "pool_max_conn_idle_time") as H10.
    rewrite lookup_dbValues in H1, H2, H3, H4, H5, H6, H7, H8, H9, H10.
    simpl in H1, H2, H3, H4, H5, H6, H7, H8, H9, H10.
    repeat case_decide; try discriminate. repeat split; (assumption || lia).
  - intros (H1 & H2 & H3 & H4 & H5 & H6 & H7 & H8 & H9 & H10).
    apply map_eq. intros k. rewrite lookup_dbValues, lookup_empty.
    repeat case_decide; try reflexivity; (congruence || lia).
Qed.

Lemma quiet_range_permutes : range_permutes quiet.
Proof. intros l. reflexivity. Qed.

Lemma dbDSN_carries_every_entry_witness :
  occurs_in "password=p w" (dbDSN quiet config_pooled)
  /\ dbDSN quiet config_zero = "".
Proof.
  destruct (dbDSN_carries_every_entry quiet config_pooled quiet_range_permutes)
    as (Hentry & _).
  split; [apply (Hentry "password" "p w"); reflexivity | reflexivity].
Defined.

(** ** Validation *)

(** X3. [Valid] reports the first field missing in the order host, port,
    name, user, password, and nothing else decides its answer: it
    accepts exactly when these five are set, whatever the other fields
    hold. *)
Theorem Valid_names_first_missing_field (cfg : Config) :
  (Valid cfg = Some (errorString "'host' was not set") <-> Host cfg = "")
  /\ (Valid cfg = Some (errorString "'port' was not set")
      <-> Host cfg <> "" /\ Port cfg = "")
  /\ (Valid cfg = Some (errorString "'name' was not set")
      <-> Host cfg <> "" /\ Port cfg <> "" /\ Name cfg = "")
  /\ (Valid cfg = Some (errorString "'user' was not set")
      <-> Host cfg <> "" /\ Port cfg <> "" /\ Name cfg <> "" /\ User cfg = "")
  /\ (Valid cfg = Some (errorString "'password' was not set")
      <-> Host cfg <> "" /\ Port cfg <> "" /\ Name cfg <> "" /\ User cfg <> ""
          /\ Password cfg = "")
  /\ (Valid cfg = None
      <-> Host cfg <> "" /\ Port cfg <> "" /\ Name cfg <> "" /\ User cfg <> ""
          /\ Password cfg <> "").
Proof.
  unfold Valid.
  repeat case_decide; intuition congruence.
Qed.

Lemma Valid_names_first_missing_field_witness :
  Valid config_zero = Some (errorString "'host' was not set")
  /\ Valid config_no_password = Some (errorString "'password' was not set")
  /\ Valid config_pooled = None.
Proof.
  destruct (Valid_names_first_missing_field config_zero) as (Hhost & _).
  destruct (Valid_names_first_missing_field config_no_password)
    as (_ & _ & _ & _ & Hpw & _).
  destruct (Valid_names_first_missing_field config_pooled)
    as (_ & _ & _ & _ & _ & Hok).
  split; [apply Hhost; reflexivity |].
  split; [apply Hpw; repeat split; (discriminate || reflexivity) |].
  apply Hok; repeat split; discriminate.
Defined.

(** X4. A configuration that [Valid] accepts gives a connection string
    in which host, port, database name, user and password each appear
    under their key with the configured value, provided a range over the
    map visits each entry once. *)
Theorem valid_config_reaches_the_dsn (K : Collab) (cfg : Config) :
  range_permutes K -> Valid cfg = None ->
  occurs_in ("host=" +:+ Host cfg) (dbDSN K cfg)
  /\ occurs_in ("port=" +:+ Port cfg) (dbDSN K cfg)
  /\ occurs_in ("dbname=" +:+ Name cfg) (dbDSN K cfg)
  /\ occurs_in ("user=" +:+ User cfg) (dbDSN K cfg)
  /\ occurs_in ("password=" +:+ Password cfg) (dbDSN K cfg).
Proof.
  intros Hperm Hvalid. unfold Valid in Hvalid.
  repeat case_decide; try discriminate Hvalid.
  assert (Hentry : forall k v, dbValues K cfg !! k = Some v ->
                               occurs_in (k +:+ "=" +:+ v) (dbDSN K cfg))
    by (intros k v; now apply dbDSN_entry).
  split; [apply (Hentry "host") | split; [apply (Hentry "port") |
    split; [apply (Hentry "dbname") | split; [apply (Hentry "user") |
      apply (Hentry "password")]]]];
    rewrite lookup_dbValues; simpl; now rewrite decide_False by assumption.
Qed.

Lemma valid_config_reaches_the_dsn_witness :
  occurs_in "host=db" (dbDSN quiet config_pooled)
  /\ occurs_in "dbname=app" (dbDSN quiet config_pooled).
Proof.
  destruct (valid_config_reaches_the_dsn quiet config_pooled
              quiet_range_permutes eq_refl) as (Hhost & _ & Hname & _).
  split; [exact Hhost | exact Hname].
Defined.

(** ** Building the client *)

(** The run of [New], step by step. *)
Lemma New_run (K : Collab) (ctx : Context) (cfg : Config) (h : History) :
  New K ctx cfg h =
  let dsn := dbDSN K cfg in
  let pcfg := mkPgxpoolConfig dsn (EnableBeforeAcquirePing cfg) in
  let parse := EvParseConfig dsn in
  let make := EvNewWithConfig ctx pcfg in
  let scan := EvNewDBScanAPI (AllowUnknownColumns cfg) in
  match pgxpool_ParseConfig K dsn h with
  | Some err => ([parse], Failed (Errorf_w "failed to parse connection string: " err))
  | None =>
    match pgxpool_NewWithConfig K ctx pcfg (h ++ [parse]) with
    | Failed err =>
        ([parse; make], Failed (Errorf_w "failed to create connection pool: " err))
    | Ok pool =>
      match Pool_Ping K pool ctx (h ++ [parse; make]) with
      | Some err =>
          ([parse; make; EvPing pool ctx],
           Failed (Errorf_w "ping to database connection: " err))
      | None =>
        match pgxscan_NewDBScanAPI K (AllowUnknownColumns cfg)
                (h ++ [parse; make; EvPing pool ctx]) with
        | Failed err =>
            ([parse; make; EvPing pool ctx; scan],
             Failed (Errorf_w "pgxscan.NewDBScanAPI: " err))
        | Ok dbScan =>
          match pgxscan_NewAPI K dbScan
                  (h ++ [parse; make; EvPing pool ctx; scan]) with
          | Failed err =>
              ([parse; make; EvPing pool ctx; scan; EvNewAPI dbScan],
               Failed (Errorf_w "pgxscan.NewAPI: " err))
          | Ok api =>
              ([parse; make; EvPing pool ctx; scan; EvNewAPI dbScan],
               Ok {| dbPool := pool;
                     queryTimeout :=
                       if decide (QueryTimeout cfg > 0)%Z then QueryTimeout cfg
                       else (Second * 5)%Z;
                     scanApi := api |})
          end
        end
      end
    end
  end.
Proof.
  unfold New, bind, call, ret. cbv zeta. simpl.
  assert (Hcfg : (if EnableBeforeAcquirePing cfg
                  then mkPgxpoolConfig (dbDSN K cfg) true
                  else mkPgxpoolConfig (dbDSN K cfg) false)
                 = mkPgxpoolConfig (dbDSN K cfg) (EnableBeforeAcquirePing cfg))
    by now destruct (EnableBeforeAcquirePing cfg).
  rewrite Hcfg.
  destruct (pgxpool_ParseConfig K _ _); simpl; [reflexivity |].
  destruct (pgxpool_NewWithConfig K _ _ _) as [pool | err]; simpl; [| reflexivity].
  rewrite <- !app_assoc. simpl.
  destruct (Pool_Ping K _ _ _); simpl; [reflexivity |].
  rewrite <- ?app_assoc. simpl.
  destruct (pgxscan_NewDBScanAPI K _ _) as [dbScan | err]; simpl; [| reflexivity].
  rewrite <- ?app_assoc. simpl.
  destruct (pgxscan_NewAPI K _ _) as [api | err]; simpl; reflexivity.
Qed.

(** X5. A client that [New] returns has a positive query timeout, holds
    the pool that [New] created from the connection string and pinged
    under the caller's context, and holds the mapper that
    [pgxscan.NewAPI] built from the scanner that [pgxscan.NewDBScanAPI]
    returned for the configured tolerance for unknown columns; [New]
    made exactly these five calls, in this order. *)
Theorem New_client_is_well_formed (K : Collab) (ctx : Context) (cfg : Config)
  (h : History) (cl : client) :
  outcome (New K ctx cfg) h = Ok cl ->
  let dsn := dbDSN K cfg in
  let pcfg := mkPgxpoolConfig dsn (EnableBeforeAcquirePing cfg) in
  (0 < queryTimeout cl)%Z
  /\ pgxpool_ParseConfig K dsn h = None
  /\ pgxpool_NewWithConfig K ctx pcfg (h ++ [EvParseConfig dsn]) = Ok (dbPool cl)
  /\ Pool_Ping K (dbPool cl) ctx (h ++ [EvParseConfig dsn; EvNewWithConfig ctx pcfg])
     = None
  /\ exists dbScan,
       pgxscan_NewDBScanAPI K (AllowUnknownColumns cfg)
         (h ++ [EvParseConfig dsn; EvNewWithConfig ctx pcfg; EvPing (dbPool cl) ctx])
       = Ok dbScan
       /\ events (New K ctx cfg) h
          = [EvParseConfig dsn; EvNewWithConfig ctx pcfg; EvPing (dbPool cl) ctx;
             EvNewDBScanAPI (AllowUnknownColumns cfg); EvNewAPI dbScan]
       /\ pgxscan_NewAPI K dbScan
            (h ++ [EvParseConfig dsn; EvNewWithConfig ctx pcfg;
                   EvPing (dbPool cl) ctx; EvNewDBScanAPI (AllowUnknownColumns cfg)])
          = Ok (scanApi cl).
Proof.
  unfold outcome, events. rewrite New_run. cbv zeta.
  destruct (pgxpool_ParseConfig K _ _); [discriminate |].
  destruct (pgxpool_NewWithConfig K _ _ _) as [pool | err]; [| discriminate].
  destruct (Pool_Ping K _ _ _) eqn:Hping; [discriminate |].
  destruct (pgxscan_NewDBScanAPI K _ _) as [dbScan | err] eqn:Hscan; [| discriminate].
  destruct (pgxscan_NewAPI K _ _) as [api | err] eqn:Hapi; [| discriminate].
  intros [= <-]. simpl.
  split; [case_decide; [lia | reflexivity] |].
  split; [reflexivity |]. split; [reflexivity |]. split; [exact Hping |].
  exists dbScan. split; [exact Hscan |]. split; [reflexivity | exact Hapi].
Qed.

Lemma New_client_is_well_formed_witness :
  exists cl, outcome (New quiet emptyCtx config_pooled) [] = Ok cl
             /\ (0 < queryTimeout cl)%Z /\ dbPool cl = 1 /\ scanApi cl = 3.
Proof.
  eexists. split; [vm_compute; reflexivity |].
  destruct (New_client_is_well_formed quiet emptyCtx config_pooled [] _ eq_refl)
    as (Hpos & _).
  split; [exact Hpos | split; reflexivity].
Defined.

(** X6. When [New] fails, the error it returns wraps the error of the
    one collaborator call that failed, under a prefix naming the step,
    and that call is the last one [New] made: a connection string that
    does not parse creates no pool, a pool that cannot be created is not
    pinged, and so on. *)
Theorem New_fails_at_the_first_failure (K : Collab) (ctx : Context) (cfg : Config)
  (h : History) (e : error) :
  outcome (New K ctx cfg) h = Failed e ->
  let dsn := dbDSN K cfg in
  let pcfg := mkPgxpoolConfig dsn (EnableBeforeAcquirePing cfg) in
  let parse := EvParseConfig dsn in
  let make := EvNewWithConfig ctx pcfg in
  let scan := EvNewDBScanAPI (AllowUnknownColumns cfg) in
  let made := events (New K ctx cfg) h in
  exists prefix cause,
    e = Errorf_w prefix cause /\ Unwrap e = Some cause
    /\ errors_Is e cause = true
    /\ ((prefix = "failed to parse connection string: " /\ made = [parse]
         /\ pgxpool_ParseConfig K dsn h = Some cause)
        \/ (prefix = "failed to create connection pool: " /\ made = [parse; make]
            /\ pgxpool_NewWithConfig K ctx pcfg (h ++ [parse]) = Failed cause)
        \/ (exists pool,
              prefix = "ping to database connection: "
              /\ made = [parse; make; EvPing pool ctx]
              /\ Pool_Ping K pool ctx (h ++ [parse; make]) = Some cause)
        \/ (exists pool,
              prefix = "pgxscan.NewDBScanAPI: "
              /\ made = [parse; make; EvPing pool ctx; scan]
              /\ pgxscan_NewDBScanAPI K (AllowUnknownColumns cfg)
                   (h ++ [parse; make; EvPing pool ctx]) = Failed cause)
        \/ (exists pool dbScan,
              prefix = "pgxscan.NewAPI: "
              /\ made = [parse; make; EvPing pool ctx; scan; EvNewAPI dbScan]
              /\ pgxscan_NewAPI K dbScan (h ++ [parse; make; EvPing pool ctx; scan])
                 = Failed cause)).
Proof.
  unfold outcome, events. rewrite New_run. cbv zeta.
  destruct (pgxpool_ParseConfig K _ _) as [err |] eqn:Hparse.
  { intros [= <-]. eexists _, err. repeat (split; [reflexivity |]).
    split; [apply errors_Is_wrapped |]. left. repeat split. }
  destruct (pgxpool_NewWithConfig K _ _ _) as [pool | err] eqn:Hmake.
  2: { intros [= <-]. eexists _, err. repeat (split; [reflexivity |]).
       split; [apply errors_Is_wrapped |]. right; left. repeat split. }
  destruct (Pool_Ping K _ _ _) as [err |] eqn:Hping.
  { intros [= <-]. eexists _, err. repeat (split; [reflexivity |]).
    split; [apply errors_Is_wrapped |]. do 2 right; left. exists pool.
    repeat split. exact Hping. }
  destruct (pgxscan_NewDBScanAPI K _ _) as [dbScan | err] eqn:Hscan.
  2: { intros [= <-]. eexists _, err. repeat (split; [reflexivity |]).
       split; [apply errors_Is_wrapped |]. do 3 right; left. exists pool.
       repeat split. exact Hscan. }
  destruct (pgxscan_NewAPI K _ _) as [api | err] eqn:Hapi; [discriminate |].
  intros [= <-]. eexists _, err. repeat (split; [reflexivity |]).
  split; [apply errors_Is_wrapped |]. do 4 right. exists pool, dbScan.
  repeat split. exact Hapi.
Qed.

Lemma New_fails_at_the_first_failure_witness :
  let e0 := wrapError "failed to create connection pool: bad pool config"
                      (errorString "bad pool config") in
  events (New (failing_new AtParse) emptyCtx config0) []
  = [EvParseConfig (dbDSN (failing_new AtParse) config0)]
  /\ outcome (New (failing_new AtPool) emptyCtx config0) [] = Failed e0
  /\ exists prefix cause,
       e0 = Errorf_w prefix cause /\ Unwrap e0 = Some cause
       /\ errors_Is e0 cause = true.
Proof.
  intros e0.
  split; [vm_compute; reflexivity |]. split; [vm_compute; reflexivity |].
  destruct (New_fails_at_the_first_failure (failing_new AtPool) emptyCtx config0 []
              e0 eq_refl) as (prefix & cause & He & Hun & His & _).
  exists prefix, cause. split; [exact He | split; [exact Hun | exact His]].
Defined.

(** X7. [New] never closes a pool and creates at most one. So when the
    pool has been created and a later step fails (the ping, or building
    the mapper), [New] returns its error and leaves the pool it created
    open. *)
Theorem New_leaves_the_pool_open (K : Collab) (ctx : Context) (cfg : Config)
  (h : History) :
  count is_close (events (New K ctx cfg) h) = 0
  /\ count is_new_pool (events (New K ctx cfg) h) <= 1
  /\ (forall e pool,
        outcome (New K ctx cfg) h = Failed e ->
        pgxpool_ParseConfig K (dbDSN K cfg) h = None ->
        pgxpool_NewWithConfig K ctx
          (mkPgxpoolConfig (dbDSN K cfg) (EnableBeforeAcquirePing cfg))
          (h ++ [EvParseConfig (dbDSN K cfg)]) = Ok pool ->
        count is_new_pool (events (New K ctx cfg) h) = 1
        /\ EvPing pool ctx ∈ events (New K ctx cfg) h
        /\ count is_close (events (New K ctx cfg) h) = 0).
Proof.
  unfold outcome, events. rewrite New_run. cbv zeta.
  destruct (pgxpool_ParseConfig K _ _) as [err |].
  { split; [reflexivity | split; [cbv; lia | intros; congruence]]. }
  destruct (pgxpool_NewWithConfig K _ _ _) as [pool | err].
  2: { split; [reflexivity | split; [cbv; lia | intros; congruence]]. }
  assert (Hin : forall rest, EvPing pool ctx
                ∈ EvParseConfig (dbDSN K cfg)
                  :: EvNewWithConfig ctx
                       (mkPgxpoolConfig (dbDSN K cfg) (EnableBeforeAcquirePing cfg))
                  :: EvPing pool ctx :: rest)
    by (intros rest; rewrite !elem_of_cons; auto).
  destruct (Pool_Ping K _ _ _) as [err |];
    [| destruct (pgxscan_NewDBScanAPI K _ _) as [dbScan | err];
       [destruct (pgxscan_NewAPI K _ _) as [api | err] |]];
    (split; [reflexivity |]); (split; [cbv; lia |]);
    intros e pool' Hfail _ [= <-]; try discriminate Hfail;
    (split; [reflexivity |]); (split; [apply Hin | reflexivity]).
Qed.

Lemma New_leaves_the_pool_open_witness :
  outcome (New (failing_new AtPing) emptyCtx config0) []
  = Failed (wrapError "ping to database connection: connection refused"
                      (errorString "connection refused"))
  /\ count is_new_pool (events (New (failing_new AtPing) emptyCtx config0) []) = 1
  /\ count is_close (events (New (failing_new AtPing) emptyCtx config0) []) = 0.
Proof.
  destruct (New_leaves_the_pool_open (failing_new AtPing) emptyCtx config0 [])
    as (_ & _ & Hopen).
  destruct (Hopen (wrapError "ping to database connection: connection refused"
                             (errorString "connection refused")) 1
              eq_refl eq_refl eq_refl) as (Hone & _ & Hclose).
  split; [reflexivity | split; [exact Hone | exact Hclose]].
Defined.

(** ** Units of work *)

(** X8. [InTx] returns nil exactly when the pool handed out a
    connection, the transaction was begun, the unit of work returned nil
    and the commit succeeded; it never reports success without a
    successful commit. *)
Theorem InTx_succeeds_iff_committed (K : Collab) (c : client) (ctx : Context)
  (isoLevel : TxIsoLevel) (f : Context -> M (option error)) (h : History) :
  outcome (InTx K c ctx isoLevel f) h = None
  <-> exists conn tx,
        Pool_Acquire K (dbPool c) ctx h = Ok conn
        /\ Conn_BeginTx K conn ctx isoLevel (h ++ [EvAcquire (dbPool c) ctx]) = Ok tx
        /\ outcome (f (contextWithTx ctx (Some tx))) (h ++ opening c ctx isoLevel conn)
           = None
        /\ Tx_Commit K tx (contextWithTx ctx (Some tx))
             (h ++ opening c ctx isoLevel conn
                ++ events (f (contextWithTx ctx (Some tx)))
                          (h ++ opening c ctx isoLevel conn)) = None
        /\ EvCommit tx (contextWithTx ctx (Some tx))
           ∈ events (InTx K c ctx isoLevel f) h.
Proof.
  unfold outcome, events. rewrite InTx_run. cbv zeta. unfold opening.
  destruct (Pool_Acquire K (dbPool c) ctx h) as [conn | err].
  2: { split; [intros Hx; discriminate Hx |].
       intros (x & y & Hx & _). discriminate Hx. }
  destruct (Conn_BeginTx K conn ctx isoLevel _) as [tx | err] eqn:Hbeg.
  2: { split; [intros Hx; discriminate Hx |].
       intros (x & y & [= <-] & Hy & _). rewrite Hbeg in Hy. discriminate Hy. }
  destruct (snd (f _ _)) as [err |] eqn:Hwork.
  { destruct (Tx_Rollback K tx _ _);
      (split; [intros Hx; discriminate Hx |]);
      intros (x & y & [= <-] & Hy & Hf & _); rewrite Hbeg in Hy;
      injection Hy as <-; rewrite Hwork in Hf; discriminate Hf. }
  destruct (Tx_Commit K tx _ _) as [err |] eqn:Hcommit.
  { split; [intros Hx; discriminate Hx |].
    intros (x & y & [= <-] & Hy & _ & Hc & _). rewrite Hbeg in Hy.
    injection Hy as <-. rewrite Hcommit in Hc. discriminate Hc. }
  split; [intros _ | reflexivity].
  exists conn, tx. rewrite Hwork, Hcommit.
  split; [reflexivity |]. split; [exact Hbeg |]. do 2 (split; [reflexivity |]).
  simpl. do 2 (apply elem_of_cons; right). apply elem_of_app; right.
  apply elem_of_cons; left. reflexivity.
Qed.

Lemma InTx_succeeds_iff_committed_witness :
  outcome (InTx quiet client0 emptyCtx "serializable" work_ok) [] = None
  /\ exists conn tx,
       EvCommit tx (contextWithTx emptyCtx (Some tx))
       ∈ events (InTx quiet client0 emptyCtx "serializable" work_ok) []
       /\ Pool_Acquire quiet (dbPool client0) emptyCtx [] = Ok conn.
Proof.
  split; [reflexivity |].
  destruct (proj1 (InTx_succeeds_iff_committed quiet client0 emptyCtx "serializable"
                     work_ok []) eq_refl)
    as (conn & tx & Hacq & _ & _ & _ & Hin).
  exists conn, tx. split; [exact Hin | exact Hacq].
Defined.

(** X9. A statement executed through the client inside a unit of work
    is issued on the transaction [InTx] began, under a timeout context
    derived from the unit of work's context, and nothing is issued on the
    pool; when the statement fails and the unit of work returns its
    error, [InTx] rolls back and, the rollback succeeding, returns that
    error as it is. *)
Theorem work_inside_InTx_uses_the_transaction (K : Collab) (c : client)
  (ctx : Context) (isoLevel : TxIsoLevel) (sql : string) (args : list any)
  (h : History) (conn : Conn) (tx : Tx) :
  Pool_Acquire K (dbPool c) ctx h = Ok conn ->
  Conn_BeginTx K conn ctx isoLevel (h ++ [EvAcquire (dbPool c) ctx]) = Ok tx ->
  let cx := contextWithTx ctx (Some tx) in
  let h1 := h ++ opening c ctx isoLevel conn in
  let t := timerCtx (length h1) cx (queryTimeout c) in
  let answer := Querier_Exec K (SrcTx tx) t sql args (h1 ++ [EvWithTimeout t]) in
  let closing :=
    match snd answer with
    | None => EvCommit tx cx
    | Some _ => EvRollback tx cx
    end in
  events (InTx K c ctx isoLevel (exec_work K c sql args)) h
  = opening c ctx isoLevel conn
    ++ [EvWithTimeout t; EvExec (SrcTx tx) t sql args; EvCancel t]
    ++ [closing; EvRelease conn]
  /\ issued (events (InTx K c ctx isoLevel (exec_work K c sql args)) h)
     = [(Execute, SrcTx tx)]
  /\ (forall err, snd answer = Some err ->
        Tx_Rollback K tx cx
          (h1 ++ [EvWithTimeout t; EvExec (SrcTx tx) t sql args; EvCancel t]) = None ->
        outcome (InTx K c ctx isoLevel (exec_work K c sql args)) h = Some err).
Proof.
  intros Hacq Hbeg cx h1 t answer closing.
  assert (Hwork : exec_work K c sql args cx h1
                  = ([EvWithTimeout t; EvExec (SrcTx tx) t sql args; EvCancel t],
                     snd answer)).
  { unfold exec_work, bind, ret. rewrite Exec_run. cbv zeta. simpl.
    unfold route, cx. rewrite txFromContext_contextWithTx. reflexivity. }
  unfold events, outcome. rewrite InTx_run. cbv zeta. rewrite Hacq, Hbeg.
  fold cx. change (h ++ [EvAcquire (dbPool c) ctx; EvBeginTx conn ctx isoLevel])
    with h1. rewrite Hwork. simpl snd. simpl fst. unfold closing.
  destruct (snd answer) as [err |] eqn:Hans.
  - destruct (Tx_Rollback K tx cx _) eqn:Hrb; simpl.
    + split; [reflexivity |]. split; [reflexivity |].
      intros err' [= <-] Hrb'. unfold h1 in Hrb'. rewrite <- app_assoc in Hrb'.
      simpl in Hrb'. simpl in Hrb. congruence.
    + split; [reflexivity |]. split; [reflexivity |]. now intros err' [= <-] _.
  - destruct (Tx_Commit K tx cx _); simpl;
      (split; [reflexivity |]); (split; [reflexivity |]); intros err' Hx;
      discriminate Hx.
Qed.

Lemma work_inside_InTx_uses_the_transaction_witness :
  let cx := contextWithTx emptyCtx (Some 1) in
  let t := timerCtx 2 cx (Second * 5)%Z in
  issued (events (InTx quiet client0 emptyCtx "serializable"
                    (exec_work quiet client0 "INSERT INTO t VALUES (1)" [])) [])
  = [(Execute, SrcTx 1)]
  /\ events (InTx failing_exec client0 emptyCtx "serializable"
               (exec_work failing_exec client0 "INSERT INTO t VALUES (1)" [])) []
     = [EvAcquire 1 emptyCtx; EvBeginTx 0 emptyCtx "serializable";
        EvWithTimeout t; EvExec (SrcTx 1) t "INSERT INTO t VALUES (1)" [];
        EvCancel t; EvRollback 1 cx; EvRelease 0]
  /\ outcome (InTx failing_exec client0 emptyCtx "serializable"
                (exec_work failing_exec client0 "INSERT INTO t VALUES (1)" [])) []
     = Some (errorString "unique violation").
Proof.
  intros cx t.
  destruct (work_inside_InTx_uses_the_transaction quiet client0 emptyCtx
              "serializable" "INSERT INTO t VALUES (1)" [] [] 0 1 eq_refl eq_refl)
    as (_ & Hissued & _).
  destruct (work_inside_InTx_uses_the_transaction failing_exec client0 emptyCtx
              "serializable" "INSERT INTO t VALUES (1)" [] [] 0 1 eq_refl eq_refl)
    as (Hevents & _ & Hout).
  split; [exact Hissued |]. split; [exact Hevents |].
  exact (Hout (errorString "unique violation") eq_refl eq_refl).
Defined.

(** X10. A unit of work that calls [InTx] again gets a second
    connection and a second transaction while the first connection is
    still held: both acquisitions come before any release. The inner
    transaction is committed or rolled back, and its connection
    released, before the outer one is; the outer one is committed
    exactly when the inner [InTx] returned nil. *)
Theorem nested_InTx_holds_two_connections (K : Collab) (c : client) (ctx : Context)
  (iso1 iso2 : TxIsoLevel) (g : Context -> M (option error)) (h : History)
  (conn1 conn2 : Conn) (tx1 tx2 : Tx) :
  let cx1 := contextWithTx ctx (Some tx1) in
  let h1 := h ++ opening c ctx iso1 conn1 in
  let cx2 := contextWithTx cx1 (Some tx2) in
  let h2 := h1 ++ opening c cx1 iso2 conn2 in
  Pool_Acquire K (dbPool c) ctx h = Ok conn1 ->
  Conn_BeginTx K conn1 ctx iso1 (h ++ [EvAcquire (dbPool c) ctx]) = Ok tx1 ->
  Pool_Acquire K (dbPool c) cx1 h1 = Ok conn2 ->
  Conn_BeginTx K conn2 cx1 iso2 (h1 ++ [EvAcquire (dbPool c) cx1]) = Ok tx2 ->
  let inner :=
    match outcome (g cx2) h2 with
    | None => EvCommit tx2 cx2
    | Some _ => EvRollback tx2 cx2
    end in
  let outer :=
    match outcome (InTx K c cx1 iso2 g) h1 with
    | None => EvCommit tx1 cx1
    | Some _ => EvRollback tx1 cx1
    end in
  events (InTx K c ctx iso1 (nested_work K c iso2 g)) h
  = opening c ctx iso1 conn1 ++ opening c cx1 iso2 conn2 ++ events (g cx2) h2
    ++ [inner; EvRelease conn2; outer; EvRelease conn1]
  /\ txFromContext cx2 = Some tx2
  /\ count is_acquire (opening c ctx iso1 conn1 ++ opening c cx1 iso2 conn2) = 2
  /\ count is_release (opening c ctx iso1 conn1 ++ opening c cx1 iso2 conn2) = 0.
Proof.
  intros cx1 h1 cx2 h2 Hacq1 Hbeg1 Hacq2 Hbeg2 inner outer.
  assert (Hinner : InTx K c cx1 iso2 g h1
                   = (opening c cx1 iso2 conn2 ++ events (g cx2) h2
                        ++ [inner; EvRelease conn2],
                      outcome (InTx K c cx1 iso2 g) h1)).
  { unfold outcome at 1. rewrite InTx_run. cbv zeta. rewrite Hacq2, Hbeg2.
    fold cx2. unfold inner, outcome, events, h2, opening.
    destruct (snd (g cx2 _));
      [destruct (Tx_Rollback K tx2 cx2 _) | destruct (Tx_Commit K tx2 cx2 _)];
      reflexivity. }
  split; [| split; [apply txFromContext_contextWithTx | split; reflexivity]].
  unfold events at 1. rewrite InTx_run. cbv zeta. rewrite Hacq1, Hbeg1.
  fold cx1. change (h ++ [EvAcquire (dbPool c) ctx; EvBeginTx conn1 ctx iso1])
    with h1. unfold nested_work. rewrite Hinner. simpl snd. simpl fst.
  unfold outer.
  destruct (outcome (InTx K c cx1 iso2 g) h1);
    [destruct (Tx_Rollback K tx1 cx1 _) | destruct (Tx_Commit K tx1 cx1 _)];
    simpl; rewrite <- ?app_assoc; reflexivity.
Qed.

Lemma nested_InTx_holds_two_connections_witness :
  let cx1 := contextWithTx emptyCtx (Some 1) in
  let cx2 := contextWithTx cx1 (Some 3) in
  events (InTx quiet client0 emptyCtx "serializable"
            (nested_work quiet client0 "read committed" work_ok)) []
  = [EvAcquire 1 emptyCtx; EvBeginTx 0 emptyCtx "serializable";
     EvAcquire 1 cx1; EvBeginTx 2 cx1 "read committed";
     EvCommit 3 cx2; EvRelease 2; EvCommit 1 cx1; EvRelease 0]
  /\ txFromContext cx2 = Some 3.
Proof.
  intros cx1 cx2.
  destruct (nested_InTx_holds_two_connections quiet client0 emptyCtx "serializable"
              "read committed" work_ok [] 0 2 1 3 eq_refl eq_refl eq_refl eq_refl)
    as (Hevents & Htx & _).
  split; [exact Hevents | exact Htx].
Defined.

(** X13. When a unit of work fetches one row through [Get], the
    mapper finds none and the unit of work returns the error of the
    fetch, [InTx] rolls the transaction back and never commits. What it
    returns is [ErrRecordsNotFound] itself when the rollback succeeds and
    otherwise an error in whose chain [errors.Is] finds
    [ErrRecordsNotFound]. *)
Theorem not_found_in_a_unit_of_work_rolls_back (K : Collab) (c : client)
  (ctx : Context) (isoLevel : TxIsoLevel) (dest : nat) (sql : string)
  (args : list any) (h : History) (conn : Conn) (tx : Tx) (err : error) :
  Pool_Acquire K (dbPool c) ctx h = Ok conn ->
  Conn_BeginTx K conn ctx isoLevel (h ++ [EvAcquire (dbPool c) ctx]) = Ok tx ->
  let cx := contextWithTx ctx (Some tx) in
  let h1 := h ++ opening c ctx isoLevel conn in
  let t := timerCtx (length h1) cx (queryTimeout c) in
  let fetch := [EvWithTimeout t; EvScanGet (scanApi c) t (SrcTx tx) dest sql args;
                EvCancel t] in
  API_Get K (scanApi c) t (SrcTx tx) dest sql args (h1 ++ [EvWithTimeout t])
  = Some err ->
  pgxscan_NotFound K err = true ->
  events (InTx K c ctx isoLevel (get_work K c dest sql args)) h
  = opening c ctx isoLevel conn ++ fetch ++ [EvRollback tx cx; EvRelease conn]
  /\ count is_commit (events (InTx K c ctx isoLevel (get_work K c dest sql args)) h)
     = 0
  /\ exists e,
       outcome (InTx K c ctx isoLevel (get_work K c dest sql args)) h = Some e
       /\ errors_Is e ErrRecordsNotFound = true
       /\ (Tx_Rollback K tx cx (h1 ++ fetch) = None -> e = ErrRecordsNotFound).
Proof.
  intros Hacq Hbeg cx h1 t fetch Hget Hnf.
  assert (Hwork : get_work K c dest sql args cx h1 = (fetch, Some ErrRecordsNotFound)).
  { unfold get_work. rewrite Get_run. cbv zeta. unfold route, cx.
    rewrite txFromContext_contextWithTx. fold cx.
    change (bounded c cx h1) with t. rewrite Hget. unfold translate.
    now rewrite Hnf. }
  assert (Hh : h ++ [EvAcquire (dbPool c) ctx; EvBeginTx conn ctx isoLevel] ++ fetch
               = h1 ++ fetch) by (unfold h1, opening; now rewrite <- app_assoc).
  unfold events, outcome. rewrite InTx_run. cbv zeta. rewrite Hacq, Hbeg.
  fold cx. change (h ++ [EvAcquire (dbPool c) ctx; EvBeginTx conn ctx isoLevel])
    with h1. rewrite Hwork. cbn [fst snd]. rewrite Hh.
  destruct (Tx_Rollback K tx cx (h1 ++ fetch)) as [err1 |]; cbn [fst snd].
  - split; [reflexivity |]. split; [reflexivity |].
    exists (both_failed err1 ErrRecordsNotFound).
    split; [reflexivity |]. split; [apply errors_Is_wrapped | discriminate].
  - split; [reflexivity |]. split; [reflexivity |].
    exists ErrRecordsNotFound. repeat split.
Qed.

Lemma not_found_in_a_unit_of_work_rolls_back_witness :
  let cx := contextWithTx emptyCtx (Some 1) in
  let run := InTx no_rows client0 emptyCtx "serializable"
               (get_work no_rows client0 0 "SELECT * FROM t WHERE id = $1" [AnyInt 7]) in
  count is_commit (events run []) = 0
  /\ count is_rollback (events run []) = 1
  /\ outcome run [] = Some ErrRecordsNotFound.
Proof.
  intros cx run.
  destruct (not_found_in_a_unit_of_work_rolls_back no_rows client0 emptyCtx
              "serializable" 0 "SELECT * FROM t WHERE id = $1" [AnyInt 7] [] 0 1
              (wrapError "scany: rows final error: no rows in result set" ErrNoRows)
              eq_refl eq_refl eq_refl eq_refl)
    as (_ & Hcommit & e & Hout & _ & Hsame).
  split; [exact Hcommit |]. split; [reflexivity |].
  unfold run. rewrite Hout. f_equal. apply Hsame. reflexivity.
Defined.

(** ** Contexts of the methods *)

Lemma ancestors_depth (a c : Context) : a ∈ ancestors c -> depth a <= depth c.
Proof.
  induction c as [| p IH k v | uid p IH | uid p IH d]; simpl;
    rewrite elem_of_cons; intros [-> | Hin]; simpl; try lia;
    try (now apply elem_of_nil in Hin); specialize (IH Hin); lia.
Qed.

Lemma timer_not_own_ancestor (uid : nat) (c : Context) (d : Duration) :
  timerCtx uid c d ∉ ancestors c.
Proof. intros Hin. apply ancestors_depth in Hin. simpl in Hin. lia. Qed.

Lemma is_done_false (h : History) (c : Context) :
  is_done h c = false <-> forall a, a ∈ ancestors c -> EvCancel a ∉ h.
Proof.
  unfold is_done. rewrite bool_decide_eq_false, Exists_exists. split.
  - intros Hno a Ha Hin. apply Hno. now exists a.
  - intros Hall (a & Ha & Hin). exact (Hall a Ha Hin).
Qed.

Lemma data_call_operation (K : Collab) (c : client) (ctx : Context) (m : Call)
  (h : History) :
  is_data_call m = true ->
  exists op kind,
    calls_of K c ctx m h
    = [EvWithTimeout (bounded c ctx h); op; EvCancel (bounded c ctx h)]
    /\ issued_by op = Some (kind, route c ctx)
    /\ ctx_of op = Some (bounded c ctx h).
Proof.
  intros Hm. destruct m; try discriminate Hm; unfold calls_of, events;
    rewrite ?Get_run, ?Select_run, ?Exec_run, ?Query_run, ?QueryRow_run;
    cbv zeta; simpl fst; eexists _, _; repeat split.
Qed.

(** X11. The calls of a data method are three: it derives its context,
    issues its one operation under that context, and cancels that
    context; it cancels no other. So when it returns its own context is
    done, and no cancel has reached the caller's context unless one had
    before. Provided no cancel had reached the caller's context and
    every timeout context cancelled so far was made earlier, no cancel
    has reached the derived context at the point where the operation is
    issued, and the proviso holds again after the method, so the cancel
    of this call does not reach the next one. *)
Theorem data_method_cancels_only_its_own_context (K : Collab) (c : client)
  (ctx : Context) (m : Call) (h : History) :
  is_data_call m = true ->
  let t := bounded c ctx h in
  let after := h ++ calls_of K c ctx m h in
  exists op kind,
    calls_of K c ctx m h = [EvWithTimeout t; op; EvCancel t]
    /\ issued_by op = Some (kind, route c ctx)
    /\ ctx_of op = Some t
    /\ is_done after t = true
    /\ (is_done h ctx = false -> is_done after ctx = false)
    /\ (is_done h ctx = false -> timers_are_past h ->
        is_done (h ++ [EvWithTimeout t]) t = false
        /\ is_done (h ++ [EvWithTimeout t; op]) t = false)
    /\ (timers_are_past h -> timers_are_past after).
Proof.
  intros Hm t after. subst after.
  destruct (data_call_operation K c ctx m h Hm) as (op & kind & -> & Hop & Hctx).
  fold t. fold t in Hctx.
  assert (Hnot : forall a, op <> EvCancel a)
    by (intros a ->; discriminate Hop).
  exists op, kind. split; [reflexivity |]. split; [exact Hop |].
  split; [exact Hctx |]. split; [| split; [| split]].
  - apply bool_decide_eq_true_2. simpl. apply Exists_cons_hd.
    rewrite elem_of_app, !elem_of_cons. auto.
  - rewrite !is_done_false. intros Hlive a Ha.
    rewrite elem_of_app, !elem_of_cons, elem_of_nil.
    intros [Hin | [Heq | [Heq | [Heq | []]]]].
    + exact (Hlive a Ha Hin).
    + discriminate Heq.
    + exact (Hnot a (eq_sym Heq)).
    + injection Heq as ->. exact (timer_not_own_ancestor _ _ _ Ha).
  - intros Hlive Hpast. rewrite is_done_false in Hlive.
    assert (Hh : forall a, a ∈ ancestors t -> EvCancel a ∉ h).
    { intros a Ha Hin. simpl in Ha. apply elem_of_cons in Ha as [-> | Ha].
      - apply Hpast in Hin. lia.
      - exact (Hlive a Ha Hin). }
    split; rewrite is_done_false; intros a Ha;
      rewrite elem_of_app, ?elem_of_cons, elem_of_nil.
    + intros [Hin | [Heq | []]]; [exact (Hh a Ha Hin) | discriminate Heq].
    + intros [Hin | [Heq | [Heq | []]]];
        [exact (Hh a Ha Hin) | discriminate Heq | exact (Hnot a (eq_sym Heq))].
  - intros Hpast uid parent d.
    rewrite elem_of_app, !elem_of_cons, elem_of_nil, length_app. simpl.
    intros [Hin | [Heq | [Heq | [Heq | []]]]].
    + apply Hpast in Hin. lia.
    + discriminate Heq.
    + exfalso. exact (Hnot _ (eq_sym Heq)).
    + injection Heq as -> _ _. lia.
Qed.

Lemma data_method_cancels_only_its_own_context_witness :
  let t := timerCtx 0 emptyCtx (Second * 5)%Z in
  let after := [] ++ calls_of quiet client0 emptyCtx (Call_Exec "SELECT 1" []) [] in
  exists op kind,
    calls_of quiet client0 emptyCtx (Call_Exec "SELECT 1" []) []
    = [EvWithTimeout t; op; EvCancel t]
    /\ issued_by op = Some (kind, SrcPool 1)
    /\ ctx_of op = Some t
    /\ is_done after t = true
    /\ is_done after emptyCtx = false
    /\ is_done ([] ++ [EvWithTimeout t; op]) t = false
    /\ timers_are_past after.
Proof.
  intros t after.
  assert (Hpast : timers_are_past [])
    by (intros uid parent d Hin; now apply elem_of_nil in Hin).
  destruct (data_method_cancels_only_its_own_context quiet client0 emptyCtx
              (Call_Exec "SELECT 1" []) [] eq_refl)
    as (op & kind & Hcalls & Hop & Hctx & Hown & Hcaller & Hlive & Hkeep).
  exists op, kind. split; [exact Hcalls |]. split; [exact Hop |].
  split; [exact Hctx |]. split; [exact Hown |]. split; [exact (Hcaller eq_refl) |].
  split; [exact (proj2 (Hlive eq_refl Hpast)) | exact (Hkeep Hpast)].
Defined.

Lemma ctx_Err_valueCtx (hist : History) (ctx : Context) (k : ctxKey) (v : any)
  (e : error) :
  ctx_Err hist ctx = Some e -> ctx_Err hist (valueCtx ctx k v) = Some e.
Proof.
  unfold ctx_Err. case_bool_decide as Hex; [| discriminate]. intros <-.
  rewrite bool_decide_eq_true_2; [reflexivity |].
  simpl. apply Exists_cons_tl.
  destruct ctx; exact Hex.
Qed.

(** X12. The context on which [InTx] runs the unit of work, and under
    which it then commits or rolls back, is a child of the caller's
    context that adds the transaction and nothing else: it sees the
    caller's values under every foreign key and it is cancelled whenever
    the caller's context is. In particular, when the caller's context is
    cancelled by the time the unit of work returns, the commit or
    rollback is requested under a cancelled context. *)
Theorem unit_of_work_inherits_the_callers_context (K : Collab) (c : client)
  (ctx : Context) (isoLevel : TxIsoLevel) (f : Context -> M (option error))
  (h : History) (conn : Conn) (tx : Tx) :
  Pool_Acquire K (dbPool c) ctx h = Ok conn ->
  Conn_BeginTx K conn ctx isoLevel (h ++ [EvAcquire (dbPool c) ctx]) = Ok tx ->
  let cx := contextWithTx ctx (Some tx) in
  let h1 := h ++ opening c ctx isoLevel conn in
  let h2 := h1 ++ events (f cx) h1 in
  (forall n, Value cx (foreignKey n) = Value ctx (foreignKey n))
  /\ (forall hist e, ctx_Err hist ctx = Some e -> ctx_Err hist cx = Some e)
  /\ exists closing,
       events (InTx K c ctx isoLevel f) h
       = opening c ctx isoLevel conn ++ events (f cx) h1 ++ [closing; EvRelease conn]
       /\ (closing = EvCommit tx cx \/ closing = EvRollback tx cx)
       /\ (forall e, ctx_Err h2 ctx = Some e -> ctx_Err h2 cx = Some e).
Proof.
  intros Hacq Hbeg cx h1 h2.
  assert (Hinherit : forall hist e, ctx_Err hist ctx = Some e -> ctx_Err hist cx = Some e)
    by (intros hist e; apply ctx_Err_valueCtx).
  split; [reflexivity |]. split; [exact Hinherit |].
  unfold events at 1. rewrite InTx_run. cbv zeta. rewrite Hacq, Hbeg.
  fold cx. change (h ++ [EvAcquire (dbPool c) ctx; EvBeginTx conn ctx isoLevel])
    with h1. unfold events, opening.
  destruct (snd (f cx h1));
    [destruct (Tx_Rollback K tx cx _) | destruct (Tx_Commit K tx cx _)];
    eexists; (split; [reflexivity |]); (split; [auto | apply Hinherit]).
Qed.


Lemma unit_of_work_inherits_the_callers_context_witness :
  let ctx := valueCtx (cancelCtx 0 emptyCtx) (foreignKey 7) (AnyString "req-42") in
  let h := [EvCancel (cancelCtx 0 emptyCtx)] in
  let cx := contextWithTx ctx (Some 2) in
  Value cx (foreignKey 7) = AnyString "req-42"
  /\ ctx_Err h cx = Some Canceled
  /\ exists closing,
       events (InTx quiet client0 ctx "serializable" work_failing) h
       = opening client0 ctx "serializable" 1 ++ [] ++ [closing; EvRelease 1]
       /\ (closing = EvCommit 2 cx \/ closing = EvRollback 2 cx).
Proof.
  intros ctx h cx.
  destruct (unit_of_work_inherits_the_callers_context quiet client0 ctx
              "serializable" work_failing h 1 2 eq_refl eq_refl)
    as (Hvalue & Hcancel & closing & Hevents & Hclosing & _).
  split; [exact (Hvalue 7) |]. split; [exact (Hcancel h Canceled eq_refl) |].
  exists closing. split; [exact Hevents | exact Hclosing].
Defined.
